(** * Web frontend (BFF client): the GraphQL call wrapper of [App.tsx]

    A shallow embedding of [gqlRequest], of the call orchestrator [run] that
    the component [App] defines, and of the five button handlers that use
    them, followed by the properties of the orchestrator.

    TypeScript types are kept: records for object types, [option] for an
    optional field or a [T | null] union, [list] for arrays.  The effects of
    the code (the React state setters, [fetch], exceptions) are threaded
    through a small monad that also records the sequence of effects. *)

From Stdlib Require Import String Ascii List Arith ZArith PrimFloat.
Import ListNotations.
Open Scope string_scope.
Open Scope list_scope.

Set Implicit Arguments.
Set Warnings "-register-all".

(** ** JavaScript values *)

(** A JavaScript [number] is an IEEE 754 binary64 value. *)
Definition number : Type := float.

(** Values of type [unknown]: the variables of a request, and whatever a
    [throw] may carry besides an [Error]. *)
Inductive JsValue : Type :=
| VUndefined
| VNull
| VBool (b : bool)
| VNumber (n : number)
| VString (s : string)
| VArray (items : list JsValue)
| VObject (fields : list (string * JsValue)).

(** What a [catch (e: unknown)] clause receives: an instance of [Error]
    with its [message], or any other value. *)
Inductive Thrown : Type :=
| ThrownError (message : string)
| ThrownValue (v : JsValue).

(** Library functions of the JavaScript runtime that the code calls and that
    are no part of the repository. *)
Class Builtins : Type := {
  String_ : JsValue -> string;
  JSON_stringify : JsValue -> string;
  Number_parseInt : string -> Z -> number
}.

(** [Number.isFinite]: neither an infinity nor NaN. *)
Definition Number_isFinite (n : number) : bool :=
  match PrimFloat.classify n with
  | FloatClass.PInf | FloatClass.NInf | FloatClass.NaN => false
  | _ => true
  end.

(** The line feed, written ['\n'] in the source. *)
Definition newline : string := String "010"%char EmptyString.

(** [Array.prototype.join] on an array of strings. *)
Fixpoint join (sep : string) (parts : list string) : string :=
  match parts with
  | [] => ""
  | [part] => part
  | part :: rest => (part ++ sep ++ join sep rest)%string
  end.

(** ** Truthiness *)

(** [ToBoolean], the coercion behind [!x] and [x && y], per type. *)
Class Truthy (T : Type) : Type := truthy : T -> bool.

#[global] Instance Truthy_boolean : Truthy bool := fun b => b.

#[global] Instance Truthy_string : Truthy string :=
  fun s => match s with EmptyString => false | String _ _ => true end.

#[global] Instance Truthy_number : Truthy number :=
  fun n => negb (PrimFloat.eqb n PrimFloat.zero || PrimFloat.is_nan n).

(** [T | null]: [null] is falsy. *)
#[global] Instance Truthy_nullable (T : Type) `{Truthy T} : Truthy (option T) :=
  fun o => match o with None => false | Some x => truthy x end.

(** Every array is truthy, the empty one too. *)
#[global] Instance Truthy_array (T : Type) : Truthy (list T) := fun _ => true.

(** ** The types of [App.tsx] *)

Record GraphQLError : Type := { message : string }.

(** [GraphQLResponse<T>]: both fields are optional. *)
Record GraphQLResponse (T : Type) : Type := {
  data : option T;
  errors : option (list GraphQLError)
}.

Module Customer.
Record t : Type := { id : string; email : string; tier : string }.
End Customer.

Module CatalogItem.
Record t : Type :=
  { sku : string; name : string; available : bool; listPrice : number }.
End CatalogItem.

Module PriceQuote.
Record t : Type :=
  { sku : string; quantity : number; unitPrice : number; totalPrice : number }.
End PriceQuote.

Module PlaceOrderResult.
Record t : Type := { orderId : string; status : string }.
End PlaceOrderResult.

(** [refundAmount?: number | null]: absent, [null] or a number. *)
Module ScheduleReturnResult.
Record t : Type :=
  { returnId : string; status : string; updatedAt : string;
    refundAmount : option (option number) }.
End ScheduleReturnResult.

(** The payload type each handler passes to [gqlRequest<T>]. *)
Record CustomerData : Type := { customer : option Customer.t }.
Record CatalogData : Type := { catalogItems : list CatalogItem.t }.
Record QuoteData : Type := { quotePrice : PriceQuote.t }.
Record PlaceOrderData : Type := { placeOrder : PlaceOrderResult.t }.
Record ScheduleReturnData : Type := { scheduleReturn : ScheduleReturnResult.t }.

(** Objects are truthy. *)
#[global] Instance Truthy_CustomerData : Truthy CustomerData := fun _ => true.
#[global] Instance Truthy_CatalogData : Truthy CatalogData := fun _ => true.
#[global] Instance Truthy_QuoteData : Truthy QuoteData := fun _ => true.
#[global] Instance Truthy_PlaceOrderData : Truthy PlaceOrderData := fun _ => true.
#[global] Instance Truthy_ScheduleReturnData : Truthy ScheduleReturnData :=
  fun _ => true.

(** ** The state of the component *)

(** The text inputs, one [useState] each. *)
Record Form : Type := {
  customerId : string;
  category : string;
  catalogLimit : string;
  quoteSku : string;
  quoteQty : string;
  orderCustomerId : string;
  orderSku : string;
  orderQty : string;
  paymentMethodId : string;
  returnOrderId : string;
  returnCustomerId : string;
  returnSku : string;
  returnQty : string;
  reasonCode : string
}.

(** The five result slots. *)
Record Results : Type := {
  customerResult : option Customer.t;
  catalogResult : list CatalogItem.t;
  quoteResult : option PriceQuote.t;
  placeOrderResult : option PlaceOrderResult.t;
  scheduleReturnResult : option ScheduleReturnResult.t
}.

Record AppState : Type := {
  form : Form;
  loading : bool;
  error : string;
  results : Results
}.

(** The initial values given to [useState]. *)
Definition initialForm : Form :=
  {| customerId := "cust-1"; category := ""; catalogLimit := "5";
     quoteSku := "sku-1"; quoteQty := "1";
     orderCustomerId := "cust-1"; orderSku := "sku-1"; orderQty := "1";
     paymentMethodId := "card-1";
     returnOrderId := "order-1"; returnCustomerId := "cust-1";
     returnSku := "sku-1"; returnQty := "1"; reasonCode := "DAMAGED" |}.

Definition initialResults : Results :=
  {| customerResult := None; catalogResult := []; quoteResult := None;
     placeOrderResult := None; scheduleReturnResult := None |}.

Definition initialState : AppState :=
  {| form := initialForm; loading := false; error := "";
     results := initialResults |}.

(** ** The network *)

(** The arguments of one [fetch] call. *)
Record Request : Type := {
  url : string;
  method : string;
  headers : list (string * string);
  body : string
}.

(** A response, by the text of its body. *)
Record Response : Type := { responseBody : string }.

(** [response.json()] followed by the unchecked cast to
    [GraphQLResponse<T>]: the decoded envelope, or the rejection of a body
    that is no JSON. *)
Class JsonBody (T : Type) : Type :=
  decodeJson : string -> Thrown + GraphQLResponse T.

(** The remote end: what [fetch] settles to for a request, given the
    requests sent before it. *)
Definition Server : Type := list Request -> Request -> Thrown + Response.

(** Everything a call can read or write: the component state and the
    requests sent so far. *)
Record World : Type := { app : AppState; sent : list Request }.

(** ** Effects *)

(** One observable step of a call.  Calling [task] or [onSuccess] is a single
    step of the caller; the steps the callee took are kept inside it. *)
Inductive Event (T : Type) : Type :=
| EvSetLoading (b : bool)
| EvSetError (s : string)
| EvFetch (req : Request)
| EvTask (inner : list (Event T))
| EvOnSuccess (payload : T) (inner : list (Event T)).

Arguments EvSetLoading {T} b.
Arguments EvSetError {T} s.
Arguments EvFetch {T} req.
Arguments EvTask {T} inner.

Definition Trace (T : Type) : Type := list (Event T).

(** A computation either returns a value or throws. *)
Definition Outcome (A : Type) : Type := (Thrown + A)%type.

(** A computation over the world that reports the steps it took. *)
Definition M (T A : Type) : Type := World -> Trace T * World * Outcome A.

Section Monad.
Context {T : Type}.

Definition ret {A} (a : A) : M T A := fun w => ([], w, inr a).

Definition throw {A} (e : Thrown) : M T A := fun w => ([], w, inl e).

Definition bind {A B} (m : M T A) (k : A -> M T B) : M T B :=
  fun w =>
    let '(t1, w1, r) := m w in
    match r with
    | inl e => (t1, w1, inl e)
    | inr a => let '(t2, w2, r2) := k a w1 in (t1 ++ t2, w2, r2)
    end.

(** [try { m } catch (e) { handler e }] *)
Definition try_catch {A} (m : M T A) (handler : Thrown -> M T A) : M T A :=
  fun w =>
    let '(t1, w1, r) := m w in
    match r with
    | inl e => let '(t2, w2, r2) := handler e w1 in (t1 ++ t2, w2, r2)
    | inr a => (t1, w1, inr a)
    end.

(** [try { m } finally { cleanup }]: the cleanup runs however [m] ends,
    and a throw of the cleanup replaces the outcome of [m]. *)
Definition try_finally {A} (m : M T A) (cleanup : M T unit) : M T A :=
  fun w =>
    let '(t1, w1, r) := m w in
    let '(t2, w2, rc) := cleanup w1 in
    (t1 ++ t2, w2, match rc with inl e => inl e | inr _ => r end).

(** The steps, the final world and the outcome of a computation. *)
Definition steps {A} (m : M T A) (w : World) : Trace T := fst (fst (m w)).
Definition after {A} (m : M T A) (w : World) : World := snd (fst (m w)).
Definition outcome {A} (m : M T A) (w : World) : Outcome A := snd (m w).
End Monad.

Declare Scope js_scope.
Delimit Scope js_scope with js.
Notation "x <- m ;; k" := (bind m (fun x => k))
  (at level 61, m at next level, right associativity) : js_scope.
Notation "m ;; k" := (bind m (fun _ => k))
  (at level 61, right associativity) : js_scope.
Open Scope js_scope.

(** ** State setters *)

Definition withLoading (b : bool) (s : AppState) : AppState :=
  {| form := form s; loading := b; error := error s; results := results s |}.

Definition withError (e : string) (s : AppState) : AppState :=
  {| form := form s; loading := loading s; error := e; results := results s |}.

Definition withResults (f : Results -> Results) (s : AppState) : AppState :=
  {| form := form s; loading := loading s; error := error s;
     results := f (results s) |}.

Definition onApp (f : AppState -> AppState) (w : World) : World :=
  {| app := f (app w); sent := sent w |}.

Section Setters.
Context {T : Type}.

Definition setLoading (b : bool) : M T unit :=
  fun w => ([EvSetLoading b], onApp (withLoading b) w, inr tt).

Definition setError (e : string) : M T unit :=
  fun w => ([EvSetError e], onApp (withError e) w, inr tt).

Definition setResults (f : Results -> Results) : M T unit :=
  fun w => ([], onApp (withResults f) w, inr tt).

Definition setCustomerResult (v : option Customer.t) : M T unit :=
  setResults (fun r =>
    {| customerResult := v; catalogResult := catalogResult r;
       quoteResult := quoteResult r; placeOrderResult := placeOrderResult r;
       scheduleReturnResult := scheduleReturnResult r |}).

Definition setCatalogResult (v : list CatalogItem.t) : M T unit :=
  setResults (fun r =>
    {| customerResult := customerResult r; catalogResult := v;
       quoteResult := quoteResult r; placeOrderResult := placeOrderResult r;
       scheduleReturnResult := scheduleReturnResult r |}).

Definition setQuoteResult (v : option PriceQuote.t) : M T unit :=
  setResults (fun r =>
    {| customerResult := customerResult r; catalogResult := catalogResult r;
       quoteResult := v; placeOrderResult := placeOrderResult r;
       scheduleReturnResult := scheduleReturnResult r |}).

Definition setPlaceOrderResult (v : option PlaceOrderResult.t) : M T unit :=
  setResults (fun r =>
    {| customerResult := customerResult r; catalogResult := catalogResult r;
       quoteResult := quoteResult r; placeOrderResult := v;
       scheduleReturnResult := scheduleReturnResult r |}).

Definition setScheduleReturnResult (v : option ScheduleReturnResult.t)
  : M T unit :=
  setResults (fun r =>
    {| customerResult := customerResult r; catalogResult := catalogResult r;
       quoteResult := quoteResult r; placeOrderResult := placeOrderResult r;
       scheduleReturnResult := v |}).
End Setters.

(** ** Transport: [gqlRequest] *)

Section Transport.
Context {T : Type} {B : Builtins} {J : JsonBody T}.
Variable server : Server.

(** [fetch]: the request goes out, and the call settles as the server
    decides. *)
Definition fetch (req : Request) : M T Response :=
  fun w =>
    ([EvFetch req],
     {| app := app w; sent := sent w ++ [req] |},
     server (sent w) req).

(** [response.json()] *)
Definition Response_json (response : Response) : M T (GraphQLResponse T) :=
  fun w => ([], w, decodeJson (responseBody response)).

Definition gqlRequest (query : string) (variables : list (string * JsValue))
  : M T (GraphQLResponse T) :=
  response <- fetch
    {| url := "/graphql";
       method := "POST";
       headers := [("content-type", "application/json")];
       body := JSON_stringify
                 (VObject [("query", VString query);
                           ("variables", VObject variables)]) |} ;;
  Response_json response.
End Transport.

(** ** The orchestrator: [run] *)

(** The text shown when an envelope carries neither errors nor data. *)
Definition noDataText : string := "No data returned by GraphQL API".

(** [payload.errors && payload.errors.length > 0] *)
Definition hasErrors {T} (payload : GraphQLResponse T) : bool :=
  match errors payload with
  | Some errs => (0 <? length errs)%nat
  | None => false
  end.

(** [payload.errors.map((item) => item.message)] *)
Definition errorMessages {T} (payload : GraphQLResponse T) : list string :=
  match errors payload with
  | Some errs => map message errs
  | None => []
  end.

(** [e instanceof Error ? e.message : String(e)] *)
Definition errorMessage {B : Builtins} (e : Thrown) : string :=
  match e with
  | ThrownError m => m
  | ThrownValue v => String_ v
  end.

Section Orchestrator.
Context {T : Type} {B : Builtins} {TT : Truthy T}.

(** [await task()]: one step of [run], holding the steps of the task. *)
Definition callTask (task : M T (GraphQLResponse T))
  : M T (GraphQLResponse T) :=
  fun w => let '(t, w1, r) := task w in ([EvTask t], w1, r).

(** [onSuccess(payload.data)]: one step of [run], holding the payload and
    the steps of the callback. *)
Definition callOnSuccess (onSuccess : T -> M T unit) (d : T) : M T unit :=
  fun w => let '(t, w1, r) := onSuccess d w in ([EvOnSuccess d t], w1, r).

(** The body of the [try] block after the envelope has arrived.  A
    [return] of the source ends the branch it stands in. *)
Definition dispatch (onSuccess : T -> M T unit) (payload : GraphQLResponse T)
  : M T unit :=
  if hasErrors payload then
    setError (join newline (errorMessages payload))
  else
    match data payload with
    | None => setError noDataText
    | Some d =>
        if negb (truthy d) then setError noDataText
        else callOnSuccess onSuccess d
    end.

Definition run (task : M T (GraphQLResponse T)) (onSuccess : T -> M T unit)
  : M T unit :=
  setLoading true ;;
  setError "" ;;
  try_finally
    (try_catch
       (payload <- callTask task ;; dispatch onSuccess payload)
       (fun e => setError (errorMessage e)))
    (setLoading false).
End Orchestrator.

(** The four ways a call can end, by the branch of [run] that is taken. *)
Inductive CallOutcome : Type :=
| Success
| ApplicationError
| MissingData
| TransportError.

Definition outcomeOf {T} {TT : Truthy T} (r : Outcome (GraphQLResponse T))
  : CallOutcome :=
  match r with
  | inl _ => TransportError
  | inr payload =>
      if hasErrors payload then ApplicationError
      else match data payload with
           | None => MissingData
           | Some d => if negb (truthy d) then MissingData else Success
           end
  end.

(** The world in which [run] calls its task: busy, no error text. *)
Definition started (w : World) : World :=
  onApp (withError "") (onApp (withLoading true) w).

(** The outcome of [run task _] started in [w]. *)
Definition callOutcome {T} {TT : Truthy T} (task : M T (GraphQLResponse T))
  (w : World) : CallOutcome :=
  outcomeOf (outcome task (started w)).

(** ** The handlers of [App] *)

Definition parseIntOrDefault {B : Builtins} (value : string) (fallback : number)
  : number :=
  let parsed := Number_parseInt value 10 in
  if Number_isFinite parsed then parsed else fallback.

(** The operation texts, as the template literals of the handlers have them. *)
Definition customerQuery : string :=
"query($id: String!) {
                      customer(id: $id) { id email tier }
                    }".

Definition catalogQuery : string :=
"query($category: String, $limit: Int) {
                      catalogItems(category: $category, limit: $limit) {
                        sku name available listPrice
                      }
                    }".

Definition quoteQuery : string :=
"query($sku: String!, $quantity: Int!) {
                      quotePrice(sku: $sku, quantity: $quantity) {
                        sku quantity unitPrice totalPrice
                      }
                    }".

Definition placeOrderMutation : string :=
"mutation($input: PlaceOrderInput!) {
                      placeOrder(input: $input) { orderId status }
                    }".

Definition scheduleReturnMutation : string :=
"mutation($input: ScheduleReturnInput!) {
                      scheduleReturn(input: $input) {
                        returnId status updatedAt refundAmount
                      }
                    }".


Section Handlers.
Context {B : Builtins}.
Context {JCustomer : JsonBody CustomerData} {JCatalog : JsonBody CatalogData}
        {JQuote : JsonBody QuoteData} {JOrder : JsonBody PlaceOrderData}
        {JReturn : JsonBody ScheduleReturnData}.
Variable server : Server.

Definition customerVariables (f : Form) : list (string * JsValue) :=
  [("id", VString (customerId f))].

Definition catalogVariables (f : Form) : list (string * JsValue) :=
  [("category", if truthy (category f) then VString (category f) else VNull);
   ("limit", VNumber (parseIntOrDefault (catalogLimit f) 5%float))].

Definition quoteVariables (f : Form) : list (string * JsValue) :=
  [("sku", VString (quoteSku f));
   ("quantity", VNumber (parseIntOrDefault (quoteQty f) 1%float))].

Definition placeOrderVariables (f : Form) : list (string * JsValue) :=
  [("input", VObject
      [("customerId", VString (orderCustomerId f));
       ("sku", VString (orderSku f));
       ("quantity", VNumber (parseIntOrDefault (orderQty f) 1%float));
       ("paymentMethodId", VString (paymentMethodId f))])].

Definition scheduleReturnVariables (f : Form) : list (string * JsValue) :=
  [("input", VObject
      [("orderId", VString (returnOrderId f));
       ("customerId", VString (returnCustomerId f));
       ("sku", VString (returnSku f));
       ("quantity", VNumber (parseIntOrDefault (returnQty f) 1%float));
       ("reasonCode", VString (reasonCode f))])].

(** The [onSuccess] callbacks. *)
Definition storeCustomer (d : CustomerData) : M CustomerData unit :=
  setCustomerResult (customer d).
Definition storeCatalog (d : CatalogData) : M CatalogData unit :=
  setCatalogResult (catalogItems d).
Definition storeQuote (d : QuoteData) : M QuoteData unit :=
  setQuoteResult (Some (quotePrice d)).
Definition storePlaceOrder (d : PlaceOrderData) : M PlaceOrderData unit :=
  setPlaceOrderResult (Some (placeOrder d)).
Definition storeScheduleReturn (d : ScheduleReturnData)
  : M ScheduleReturnData unit :=
  setScheduleReturnResult (Some (scheduleReturn d)).

(** The [onClick] handlers; each reads the inputs of the render it was
    created in. *)
Definition loadCustomer : M CustomerData unit :=
  fun w =>
    run (gqlRequest server customerQuery (customerVariables (form (app w))))
        storeCustomer w.

Definition loadCatalog : M CatalogData unit :=
  fun w =>
    run (gqlRequest server catalogQuery (catalogVariables (form (app w))))
        storeCatalog w.

Definition getQuote : M QuoteData unit :=
  fun w =>
    run (gqlRequest server quoteQuery (quoteVariables (form (app w))))
        storeQuote w.

Definition placeOrderClick : M PlaceOrderData unit :=
  fun w =>
    run (gqlRequest server placeOrderMutation
           (placeOrderVariables (form (app w))))
        storePlaceOrder w.

Definition scheduleReturnClick : M ScheduleReturnData unit :=
  fun w =>
    run (gqlRequest server scheduleReturnMutation
           (scheduleReturnVariables (form (app w))))
        storeScheduleReturn w.
End Handlers.

(** ** Reading a trace *)

(** The arguments of the calls of [onSuccess] that a computation made
    itself, in order. *)
Fixpoint onSuccessCalls {T} (t : Trace T) : list T :=
  match t with
  | [] => []
  | EvOnSuccess d _ :: rest => d :: onSuccessCalls rest
  | _ :: rest => onSuccessCalls rest
  end.

(** How often a computation itself executed [setLoading(false)]. *)
Fixpoint clearings {T} (t : Trace T) : nat :=
  match t with
  | [] => 0
  | EvSetLoading false :: rest => S (clearings rest)
  | _ :: rest => clearings rest
  end.

(** The requests a computation itself passed to [fetch]. *)
Fixpoint fetches {T} (t : Trace T) : list Request :=
  match t with
  | [] => []
  | EvFetch req :: rest => req :: fetches rest
  | _ :: rest => fetches rest
  end.

(** The world [run] leaves: the busy flag cleared. *)
Definition finished (w : World) : World := onApp (withLoading false) w.

(** ** A runtime for closed examples *)

(** The theorems below hold for every [Builtins]; a closed example needs
    one to run in.  [exampleString] is [String] on the values whose text the
    value alone fixes (primitives other than numbers, and plain objects); no
    example looks at the text of a number or an array, at a request body or
    at a parsed integer. *)
Definition exampleString (v : JsValue) : string :=
  match v with
  | VUndefined => "undefined"
  | VNull => "null"
  | VBool true => "true"
  | VBool false => "false"
  | VString s => s
  | VObject _ => "[object Object]"
  | VNumber _ | VArray _ => ""
  end.

Definition exampleBuiltins : Builtins :=
  {| String_ := exampleString;
     JSON_stringify := fun _ => "";
     Number_parseInt := fun _ _ => PrimFloat.nan |}.

(** A world with nothing sent yet, and one with a customer already shown and
    an earlier error on screen. *)
Definition initialWorld : World := {| app := initialState; sent := [] |}.

Definition alice : Customer.t :=
  {| Customer.id := "cust-1"; Customer.email := "alice@example.com";
     Customer.tier := "GOLD" |}.

Definition usedWorld : World :=
  {| app := {| form := initialForm; loading := false; error := "stale";
               results := {| customerResult := Some alice;
                             catalogResult := [];
                             quoteResult := None;
                             placeOrderResult := None;
                             scheduleReturnResult := None |} |};
     sent := [] |}.

(** An envelope with two errors and data as well. *)
Definition failedWithData : GraphQLResponse CustomerData :=
  {| data := Some {| customer := Some alice |};
     errors := Some [ {| message := "not found" |};
                      {| message := "try later" |} ] |}.

(** The envelope [{}]. *)
Definition emptyEnvelope : GraphQLResponse CustomerData :=
  {| data := None; errors := None |}.

(** The envelope [{data: {customer: null}}]. *)
Definition customerGone : GraphQLResponse CustomerData :=
  {| data := Some {| customer := None |}; errors := None |}.

(** The envelope [{errors: [{message: "not found"}]}]. *)
Definition notFound : GraphQLResponse CustomerData :=
  {| data := None; errors := Some [ {| message := "not found" |} ] |}.

(** The envelope [{data: false}] of a call typed [run<boolean>]. *)
Definition falseEnvelope : GraphQLResponse bool :=
  {| data := Some false; errors := None |}.

(** A server that answers every request with the body [{}], and the
    decoding of that body. *)
Definition emptyServer : Server := fun _ _ => inr {| responseBody := "{}" |}.

Definition alwaysEmpty : JsonBody CustomerData := fun _ => inr emptyEnvelope.

(** ** Operations and servers *)

(** The five operation kinds, one per button and result slot. *)
Inductive Operation : Type :=
| LoadCustomer
| LoadCatalog
| GetQuote
| PlaceOrder
| ScheduleReturn.

(** Every slot but the one of [op] holds in [r'] what it held in [r]. *)
Definition othersUnchanged (op : Operation) (r r' : Results) : Prop :=
  (op <> LoadCustomer -> customerResult r' = customerResult r) /\
  (op <> LoadCatalog -> catalogResult r' = catalogResult r) /\
  (op <> GetQuote -> quoteResult r' = quoteResult r) /\
  (op <> PlaceOrder -> placeOrderResult r' = placeOrderResult r) /\
  (op <> ScheduleReturn -> scheduleReturnResult r' = scheduleReturnResult r).

(** A server is deterministic when its answer to a request does not depend
    on what was sent before. *)
Definition deterministic (server : Server) : Prop :=
  forall history history' req, server history req = server history' req.

Section Clicks.
Context {B : Builtins}.
Context {JCustomer : JsonBody CustomerData} {JCatalog : JsonBody CatalogData}
        {JQuote : JsonBody QuoteData} {JOrder : JsonBody PlaceOrderData}
        {JReturn : JsonBody ScheduleReturnData}.
Variable server : Server.

(** The world after the [onClick] handler of the button of [op] has run in
    [w] and its call has finished.  This is the handler called as a
    function; what a click does, given [disabled={loading}], is [click]
    below. *)
Definition clicked (op : Operation) (w : World) : World :=
  match op with
  | LoadCustomer => after (loadCustomer server) w
  | LoadCatalog => after (loadCatalog server) w
  | GetQuote => after (getQuote server) w
  | PlaceOrder => after (placeOrderClick server) w
  | ScheduleReturn => after (scheduleReturnClick server) w
  end.

(** The outcome of the call that the handler of the button of [op]
    makes. *)
Definition clickOutcome (op : Operation) (w : World) : CallOutcome :=
  let f := form (app w) in
  match op with
  | LoadCustomer =>
      callOutcome (T := CustomerData)
        (gqlRequest server customerQuery (customerVariables f)) w
  | LoadCatalog =>
      callOutcome (T := CatalogData)
        (gqlRequest server catalogQuery (catalogVariables f)) w
  | GetQuote =>
      callOutcome (T := QuoteData)
        (gqlRequest server quoteQuery (quoteVariables f)) w
  | PlaceOrder =>
      callOutcome (T := PlaceOrderData)
        (gqlRequest server placeOrderMutation (placeOrderVariables f)) w
  | ScheduleReturn =>
      callOutcome (T := ScheduleReturnData)
        (gqlRequest server scheduleReturnMutation (scheduleReturnVariables f)) w
  end.
End Clicks.

(** ** Clicks on the buttons *)

Section RealClicks.
Context {B : Builtins}.
Context {JCustomer : JsonBody CustomerData} {JCatalog : JsonBody CatalogData}
        {JQuote : JsonBody QuoteData} {JOrder : JsonBody PlaceOrderData}
        {JReturn : JsonBody ScheduleReturnData}.
Variable server : Server.

(** A click on the button of [op]: every button has [disabled={loading}],
    and a disabled button runs no handler. *)
Definition click (op : Operation) (w : World) : World :=
  if loading (app w) then w else clicked server op w.
End RealClicks.

(** ** What a call does, per outcome *)

Section EndsAs.
Context {T : Type} {B : Builtins} {TT : Truthy T}.

(** [run task onSuccess], started in [w], ends as [k]: what the task
    settled to, and the steps [run] took on it.  In every case the task is
    called once, after the two setters, and the busy flag is cleared last. *)
Definition endsAs (k : CallOutcome) (task : M T (GraphQLResponse T))
  (onSuccess : T -> M T unit) (w : World) : Prop :=
  let called :=
    [EvSetLoading true; EvSetError ""; EvTask (steps task (started w))] in
  let w2 := after task (started w) in
  match k with
  | Success =>
      exists payload d,
        outcome task (started w) = inr payload
        /\ hasErrors payload = false
        /\ data payload = Some d
        /\ truthy d = true
        /\ steps (run task onSuccess) w
           = called
             ++ [EvOnSuccess d (steps (onSuccess d) w2)]
             ++ match outcome (onSuccess d) w2 with
                | inl e => [EvSetError (errorMessage e)]
                | inr _ => []
                end
             ++ [EvSetLoading false]
  | ApplicationError =>
      exists payload,
        outcome task (started w) = inr payload
        /\ hasErrors payload = true
        /\ steps (run task onSuccess) w
           = called
             ++ [EvSetError (join newline (errorMessages payload));
                 EvSetLoading false]
  | MissingData =>
      exists payload,
        outcome task (started w) = inr payload
        /\ hasErrors payload = false
        /\ (data payload = None
            \/ exists d, data payload = Some d /\ truthy d = false)
        /\ steps (run task onSuccess) w
           = called ++ [EvSetError noDataText; EvSetLoading false]
  | TransportError =>
      exists e,
        outcome task (started w) = inl e
        /\ steps (run task onSuccess) w
           = called ++ [EvSetError (errorMessage e); EvSetLoading false]
  end.
End EndsAs.

Section ClickEndsAs.
Context {B : Builtins}.
Context {JCustomer : JsonBody CustomerData} {JCatalog : JsonBody CatalogData}
        {JQuote : JsonBody QuoteData} {JOrder : JsonBody PlaceOrderData}
        {JReturn : JsonBody ScheduleReturnData}.
Variable server : Server.

(** The same for the call that the handler of the button of [op] makes. *)
Definition clickEndsAs (k : CallOutcome) (op : Operation) (w : World)
  : Prop :=
  let f := form (app w) in
  match op with
  | LoadCustomer =>
      endsAs k (gqlRequest server customerQuery (customerVariables f))
        storeCustomer w
  | LoadCatalog =>
      endsAs k (gqlRequest server catalogQuery (catalogVariables f))
        storeCatalog w
  | GetQuote =>
      endsAs k (gqlRequest server quoteQuery (quoteVariables f))
        storeQuote w
  | PlaceOrder =>
      endsAs k (gqlRequest server placeOrderMutation (placeOrderVariables f))
        storePlaceOrder w
  | ScheduleReturn =>
      endsAs k (gqlRequest server scheduleReturnMutation
                  (scheduleReturnVariables f))
        storeScheduleReturn w
  end.
End ClickEndsAs.

(** ** The requests of the handlers *)

(** The operation text and the variables a click on the button of [op]
    passes to [gqlRequest], and the request that makes. *)
Definition queryOf (op : Operation) : string :=
  match op with
  | LoadCustomer => customerQuery
  | LoadCatalog => catalogQuery
  | GetQuote => quoteQuery
  | PlaceOrder => placeOrderMutation
  | ScheduleReturn => scheduleReturnMutation
  end.

Definition variablesOf {B : Builtins} (op : Operation) (f : Form)
  : list (string * JsValue) :=
  match op with
  | LoadCustomer => customerVariables f
  | LoadCatalog => catalogVariables f
  | GetQuote => quoteVariables f
  | PlaceOrder => placeOrderVariables f
  | ScheduleReturn => scheduleReturnVariables f
  end.

Definition requestOf {B : Builtins} (op : Operation) (f : Form) : Request :=
  {| url := "/graphql";
     method := "POST";
     headers := [("content-type", "application/json")];
     body := JSON_stringify
               (VObject [("query", VString (queryOf op));
                         ("variables", VObject (variablesOf op f))]) |}.

(** The numbers that occur in a value, at any depth. *)
Fixpoint numbersIn (v : JsValue) : list number :=
  match v with
  | VNumber n => [n]
  | VArray items => flat_map numbersIn items
  | VObject fields => flat_map (fun field => numbersIn (snd field)) fields
  | VUndefined | VNull | VBool _ | VString _ => []
  end.

(** The texts a computation itself passed to [setError], in order. *)
Fixpoint errorWrites {T} (t : Trace T) : list string :=
  match t with
  | [] => []
  | EvSetError s :: rest => s :: errorWrites rest
  | _ :: rest => errorWrites rest
  end.

(** The state a call leaves, as a function of the state it started in and
    of what its task settled to, for a callback that stores [store d]. *)
Definition settled {T} {B : Builtins} {TT : Truthy T}
  (store : T -> Results -> Results) (s : AppState)
  (r : Outcome (GraphQLResponse T)) : AppState :=
  let failed (text : string) :=
    {| form := form s; loading := false; error := text;
       results := results s |} in
  match r with
  | inl e => failed (errorMessage e)
  | inr payload =>
      if hasErrors payload then failed (join newline (errorMessages payload))
      else match data payload with
           | None => failed noDataText
           | Some d =>
               if negb (truthy d) then failed noDataText
               else {| form := form s; loading := false; error := "";
                       results := store d (results s) |}
           end
  end.

(** What each callback of [App] makes of the result slots. *)
Definition customerStore (d : CustomerData) (r : Results) : Results :=
  {| customerResult := customer d; catalogResult := catalogResult r;
     quoteResult := quoteResult r; placeOrderResult := placeOrderResult r;
     scheduleReturnResult := scheduleReturnResult r |}.

Definition catalogStore (d : CatalogData) (r : Results) : Results :=
  {| customerResult := customerResult r; catalogResult := catalogItems d;
     quoteResult := quoteResult r; placeOrderResult := placeOrderResult r;
     scheduleReturnResult := scheduleReturnResult r |}.

Definition quoteStore (d : QuoteData) (r : Results) : Results :=
  {| customerResult := customerResult r; catalogResult := catalogResult r;
     quoteResult := Some (quotePrice d);
     placeOrderResult := placeOrderResult r;
     scheduleReturnResult := scheduleReturnResult r |}.

Definition placeOrderStore (d : PlaceOrderData) (r : Results) : Results :=
  {| customerResult := customerResult r; catalogResult := catalogResult r;
     quoteResult := quoteResult r; placeOrderResult := Some (placeOrder d);
     scheduleReturnResult := scheduleReturnResult r |}.

Definition scheduleReturnStore (d : ScheduleReturnData) (r : Results)
  : Results :=
  {| customerResult := customerResult r; catalogResult := catalogResult r;
     quoteResult := quoteResult r; placeOrderResult := placeOrderResult r;
     scheduleReturnResult := Some (scheduleReturn d) |}.

Section ClickSettled.
Context {B : Builtins}.
Context {JCustomer : JsonBody CustomerData} {JCatalog : JsonBody CatalogData}
        {JQuote : JsonBody QuoteData} {JOrder : JsonBody PlaceOrderData}
        {JReturn : JsonBody ScheduleReturnData}.
Variable server : Server.

(** The state a click on the button of [op] leaves, as a function of the
    state before it and of what its request settles to. *)
Definition clickSettled (op : Operation) (w : World) : AppState :=
  let f := form (app w) in
  match op with
  | LoadCustomer =>
      settled customerStore (app w)
        (outcome (gqlRequest server customerQuery (customerVariables f))
                 (started w))
  | LoadCatalog =>
      settled catalogStore (app w)
        (outcome (gqlRequest server catalogQuery (catalogVariables f))
                 (started w))
  | GetQuote =>
      settled quoteStore (app w)
        (outcome (gqlRequest server quoteQuery (quoteVariables f))
                 (started w))
  | PlaceOrder =>
      settled placeOrderStore (app w)
        (outcome (gqlRequest server placeOrderMutation (placeOrderVariables f))
                 (started w))
  | ScheduleReturn =>
      settled scheduleReturnStore (app w)
        (outcome (gqlRequest server scheduleReturnMutation
                    (scheduleReturnVariables f))
                 (started w))
  end.
End ClickSettled.

(** ** The development server: [vite.config.ts] *)

Module ViteConfig.
Record ProxyOptions : Type := { target : string; changeOrigin : bool }.

(** [process.env.VITE_BFF_URL || 'http://localhost:4400']: the variable may
    be unset. *)
Definition bffTarget (VITE_BFF_URL : option string) : string :=
  match VITE_BFF_URL with
  | Some value => if truthy value then value else "http://localhost:4400"
  | None => "http://localhost:4400"
  end.

(** [server.proxy], an object keyed by path. *)
Definition proxy (VITE_BFF_URL : option string)
  : list (string * ProxyOptions) :=
  [("/graphql",
    {| target := bffTarget VITE_BFF_URL; changeOrigin := true |});
   ("/_meta",
    {| target := bffTarget VITE_BFF_URL; changeOrigin := true |})].

(** The entry of an object under a key. *)
Fixpoint entry {A} (key : string) (object : list (string * A)) : option A :=
  match object with
  | [] => None
  | (k, v) :: rest => if String.eqb k key then Some v else entry key rest
  end.
End ViteConfig.

(** ** More sample data *)

(** A server that answers with a page of HTML, and the rejection of
    [response.json()] on it. *)
Definition htmlServer : Server :=
  fun _ _ => inr {| responseBody := "<html></html>" |}.

Definition rejectsBody : JsonBody CustomerData :=
  fun _ => inl (ThrownError "Unexpected token <").

(** A catalog of one item, a server that answers with it, and the decoding
    of its answer. *)
Definition widget : CatalogItem.t :=
  {| CatalogItem.sku := "sku-1"; CatalogItem.name := "Widget";
     CatalogItem.available := true; CatalogItem.listPrice := 10%float |}.

Definition catalogEnvelope : GraphQLResponse CatalogData :=
  {| data := Some {| catalogItems := [widget] |}; errors := Some [] |}.

Definition catalogServer : Server :=
  fun _ _ => inr {| responseBody := "[the JSON text of catalogEnvelope]" |}.

Definition decodesCatalog : JsonBody CatalogData :=
  fun _ => inr catalogEnvelope.

Definition decodesNothing (T : Type) : JsonBody T :=
  fun _ => inr {| data := None; errors := None |}.

(** The envelope [{data: ""}] of a call typed [run<string>]. *)
Definition emptyTextEnvelope : GraphQLResponse string :=
  {| data := Some ""; errors := None |}.

(** A runtime whose [Number.parseInt] reads the text [7] as the number 7
    and finds no number in any other text the examples parse. *)
Definition parsingBuiltins : Builtins :=
  {| String_ := exampleString;
     JSON_stringify := fun _ => "";
     Number_parseInt :=
       fun text _ => if String.eqb text "7" then 7%float else PrimFloat.nan |}.

(** An envelope whose only error has an empty message. *)
Definition silentError : GraphQLResponse CustomerData :=
  {| data := None; errors := Some [ {| message := "" |} ] |}.

(** ** How [run] unfolds *)

Unset Implicit Arguments.

Section RunFacts.
Context {T : Type} {B : Builtins} {TT : Truthy T}.
Variable task : M T (GraphQLResponse T).
Variable onSuccess : T -> M T unit.

Lemma run_task_throws w tr w2 e :
  task (started w) = (tr, w2, inl e) ->
  run task onSuccess w =
    ([EvSetLoading true; EvSetError ""; EvTask tr;
      EvSetError (errorMessage e); EvSetLoading false],
     finished (onApp (withError (errorMessage e)) w2), inr tt).
Proof.
  intros H. unfold run, bind, try_finally, try_catch, callTask, setLoading,
    setError. fold (started w). rewrite H. reflexivity.
Qed.

Lemma run_task_returns w tr w2 payload :
  task (started w) = (tr, w2, inr payload) ->
  run task onSuccess w =
    let '(td, w3, rd) := dispatch onSuccess payload w2 in
    match rd with
    | inl e =>
        ([EvSetLoading true; EvSetError ""; EvTask tr] ++ td ++
           [EvSetError (errorMessage e); EvSetLoading false],
         finished (onApp (withError (errorMessage e)) w3), inr tt)
    | inr _ =>
        ([EvSetLoading true; EvSetError ""; EvTask tr] ++ td ++
           [EvSetLoading false],
         finished w3, inr tt)
    end.
Proof.
  intros H. unfold run, bind, try_finally, try_catch, callTask, setLoading,
    setError. fold (started w). rewrite H.
  destruct (dispatch onSuccess payload w2) as [[td w3] [e | []]]; simpl.
  - rewrite <- app_assoc. reflexivity.
  - reflexivity.
Qed.
End RunFacts.

(** ** How [dispatch] branches *)

Section DispatchFacts.
Context {T : Type} {TT : Truthy T}.
Variable onSuccess : T -> M T unit.

Lemma hasErrors_nonempty (payload : GraphQLResponse T) errs :
  errors payload = Some errs -> errs <> [] -> hasErrors payload = true.
Proof.
  intros E N. unfold hasErrors. rewrite E.
  destruct errs; [congruence | reflexivity].
Qed.

Lemma hasErrors_none (payload : GraphQLResponse T) :
  errors payload = None \/ errors payload = Some [] ->
  hasErrors payload = false.
Proof.
  intros [E | E]; unfold hasErrors; rewrite E; reflexivity.
Qed.

Lemma dispatch_errors payload errs w :
  errors payload = Some errs -> errs <> [] ->
  dispatch onSuccess payload w =
    ([EvSetError (join newline (map message errs))],
     onApp (withError (join newline (map message errs))) w, inr tt).
Proof.
  intros E N. unfold dispatch, errorMessages.
  rewrite (hasErrors_nonempty _ _ E N), E. reflexivity.
Qed.

Lemma dispatch_no_data payload w :
  hasErrors payload = false ->
  match data payload with None => True | Some d => truthy d = false end ->
  dispatch onSuccess payload w =
    ([EvSetError noDataText], onApp (withError noDataText) w, inr tt).
Proof.
  intros E D. unfold dispatch. rewrite E.
  destruct (data payload) as [d |]; [rewrite D |]; reflexivity.
Qed.

Lemma dispatch_data payload d w :
  hasErrors payload = false -> data payload = Some d -> truthy d = true ->
  dispatch onSuccess payload w = callOnSuccess onSuccess d w.
Proof.
  intros E D Y. unfold dispatch. rewrite E, D, Y. reflexivity.
Qed.
End DispatchFacts.

(** ** Properties of [run] *)

(** C1.  When the task yields an envelope whose [errors] field is present
    and non-empty, the error text after [run] is the [message] fields of the
    error records joined by line feeds, in their order, and [run] does not
    call [onSuccess]; the [data] field of the envelope is unconstrained, so
    this holds whether or not data came along. *)
Theorem run_application_error
  {T : Type} {B : Builtins} {TT : Truthy T}
  (task : M T (GraphQLResponse T)) (onSuccess : T -> M T unit)
  (w w2 : World) (tr : Trace T) (payload : GraphQLResponse T)
  (errs : list GraphQLError) :
  task (started w) = (tr, w2, inr payload) ->
  errors payload = Some errs ->
  errs <> [] ->
  error (app (after (run task onSuccess) w)) = join newline (map message errs)
  /\ onSuccessCalls (steps (run task onSuccess) w) = [].
Proof.
  intros Htask E N. unfold after, steps.
  rewrite (run_task_returns task onSuccess _ _ _ _ Htask).
  rewrite (dispatch_errors onSuccess _ _ _ E N). simpl. split; reflexivity.
Qed.

Lemma run_application_error_witness :
  error (app (after (run (B := exampleBuiltins) (ret failedWithData)
                         storeCustomer) usedWorld))
    = join newline ["not found"; "try later"]
  /\ onSuccessCalls (steps (run (B := exampleBuiltins) (ret failedWithData)
                                storeCustomer) usedWorld) = [].
Proof.
  apply (run_application_error (B := exampleBuiltins) (ret failedWithData)
           storeCustomer usedWorld (started usedWorld) [] failedWithData
           [ {| message := "not found" |}; {| message := "try later" |} ]).
  - reflexivity.
  - reflexivity.
  - discriminate.
Defined.

(** C3.  When the task yields an envelope whose [errors] field is absent or
    empty and whose [data] field is absent, the error text after [run] is
    the fixed text "No data returned by GraphQL API" and [run] does not call
    [onSuccess]. *)
Theorem run_missing_data
  {T : Type} {B : Builtins} {TT : Truthy T}
  (task : M T (GraphQLResponse T)) (onSuccess : T -> M T unit)
  (w w2 : World) (tr : Trace T) (payload : GraphQLResponse T) :
  task (started w) = (tr, w2, inr payload) ->
  errors payload = None \/ errors payload = Some [] ->
  data payload = None ->
  error (app (after (run task onSuccess) w)) = "No data returned by GraphQL API"
  /\ onSuccessCalls (steps (run task onSuccess) w) = [].
Proof.
  intros Htask E D. unfold after, steps.
  rewrite (run_task_returns task onSuccess _ _ _ _ Htask).
  rewrite (dispatch_no_data onSuccess payload w2 (hasErrors_none _ E)).
  - simpl. split; reflexivity.
  - rewrite D. exact I.
Qed.

Lemma run_missing_data_witness :
  error (app (after (run (B := exampleBuiltins) (ret emptyEnvelope)
                         storeCustomer) usedWorld))
    = "No data returned by GraphQL API"
  /\ onSuccessCalls (steps (run (B := exampleBuiltins) (ret emptyEnvelope)
                                storeCustomer) usedWorld) = [].
Proof.
  apply (run_missing_data (B := exampleBuiltins) (ret emptyEnvelope)
           storeCustomer usedWorld (started usedWorld) [] emptyEnvelope).
  - reflexivity.
  - left. reflexivity.
  - reflexivity.
Defined.

(** C5.  When the task throws instead of yielding an envelope, the call
    ends as a transport error: the error text after [run] is the message of the thrown [Error], or the string
    conversion of any other thrown value; the busy flag ends false, the
    callback is not called and [run] itself does not throw. *)
Theorem run_transport_error
  {T : Type} {B : Builtins} {TT : Truthy T}
  (task : M T (GraphQLResponse T)) (onSuccess : T -> M T unit)
  (w w2 : World) (tr : Trace T) (e : Thrown) :
  task (started w) = (tr, w2, inl e) ->
  callOutcome task w = TransportError
  /\ error (app (after (run task onSuccess) w))
     = match e with ThrownError m => m | ThrownValue v => String_ v end
  /\ loading (app (after (run task onSuccess) w)) = false
  /\ onSuccessCalls (steps (run task onSuccess) w) = []
  /\ outcome (run task onSuccess) w = inr tt.
Proof.
  intros Htask. unfold callOutcome, after, steps, outcome.
  rewrite (run_task_throws task onSuccess _ _ _ _ Htask), Htask. simpl.
  repeat split; reflexivity.
Qed.

Lemma run_transport_error_witness :
  callOutcome (T := CustomerData) (throw (ThrownError "network down"))
    usedWorld = TransportError
  /\ error (app (after (run (B := exampleBuiltins)
                         (throw (ThrownError "network down"))
                         storeCustomer) usedWorld)) = "network down"
  /\ loading (app (after (run (B := exampleBuiltins)
                              (throw (ThrownError "network down"))
                              storeCustomer) usedWorld)) = false
  /\ onSuccessCalls (steps (run (B := exampleBuiltins)
                                (throw (ThrownError "network down"))
                                storeCustomer) usedWorld) = []
  /\ outcome (run (B := exampleBuiltins) (throw (ThrownError "network down"))
                  storeCustomer) usedWorld = inr tt.
Proof.
  apply (run_transport_error (B := exampleBuiltins)
           (throw (ThrownError "network down")) storeCustomer
           usedWorld (started usedWorld) [] (ThrownError "network down")).
  reflexivity.
Defined.

(** The envelope [{errors: [{message: "not found"}]}] puts "not found" on
    the screen and leaves the customer shown. *)
Example run_not_found {B : Builtins} :
  error (app (after (run (ret notFound) storeCustomer) usedWorld))
    = "not found"
  /\ results (app (after (run (ret notFound) storeCustomer) usedWorld))
     = results (app usedWorld).
Proof. split; reflexivity. Qed.

(** A string thrown as it is reaches the screen through [String]. *)
Example run_thrown_string {B : Builtins} :
  error (app (after (run (throw (ThrownValue (VString "timeout")))
                         storeCustomer) usedWorld))
    = String_ (VString "timeout").
Proof. reflexivity. Qed.

(** What [dispatch] itself does is a single step, and never a clearing of
    the busy flag. *)
Lemma dispatch_single_step {T : Type} {TT : Truthy T}
  (onSuccess : T -> M T unit) (payload : GraphQLResponse T) (w : World) :
  exists ev, fst (fst (dispatch onSuccess payload w)) = [ev]
             /\ clearings [ev] = 0.
Proof.
  unfold dispatch.
  destruct (hasErrors payload).
  - eexists. split; reflexivity.
  - destruct (data payload) as [d |].
    + destruct (truthy d); simpl.
      * unfold callOnSuccess.
        destruct (onSuccess d w) as [[tc w3] rc]. eexists. split; reflexivity.
      * eexists. split; reflexivity.
    + eexists. split; reflexivity.
Qed.

(** C4.  Whatever the task and the callback do, [run] first sets the busy
    flag, so that the task runs with the flag set, and last clears it; [run]
    itself clears it exactly once, the flag is false in the world [run]
    leaves, and no exception leaves [run]. *)
Theorem run_busy_bracket
  {T : Type} {B : Builtins} {TT : Truthy T}
  (task : M T (GraphQLResponse T)) (onSuccess : T -> M T unit) (w : World) :
  exists mid,
    steps (run task onSuccess) w
      = EvSetLoading true :: mid ++ [EvSetLoading false]
    /\ clearings (steps (run task onSuccess) w) = 1
    /\ loading (app (started w)) = true
    /\ loading (app (after (run task onSuccess) w)) = false
    /\ outcome (run task onSuccess) w = inr tt.
Proof.
  unfold steps, after, outcome.
  destruct (task (started w)) as [[tr w2] [e | payload]] eqn:Htask.
  - rewrite (run_task_throws task onSuccess _ _ _ _ Htask). simpl.
    exists [EvSetError ""; EvTask tr; EvSetError (errorMessage e)].
    repeat split; reflexivity.
  - rewrite (run_task_returns task onSuccess _ _ _ _ Htask).
    destruct (dispatch_single_step onSuccess payload w2) as [ev [Hev Hclear]].
    destruct (dispatch onSuccess payload w2) as [[td w3] [e | u]];
      simpl in Hev; subst td; simpl in Hclear; simpl.
    + exists [EvSetError ""; EvTask tr; ev; EvSetError (errorMessage e)].
      destruct ev as [[|] | | | |]; try discriminate; repeat split; reflexivity.
    + exists [EvSetError ""; EvTask tr; ev].
      destruct ev as [[|] | | | |]; try discriminate; repeat split; reflexivity.
Qed.

(** C2, as the code has it.  Let the task yield an envelope whose [errors]
    field is absent or empty and whose [data] field is present.  When the
    value of [data] is truthy, [run] calls [onSuccess] exactly once, with
    that value, in the world the task left; when the callback returns, [run]
    leaves the world of the callback with the busy flag cleared, so the
    error text is empty provided neither the task nor the callback wrote it.
    When the value is falsy, [run] handles it as missing data: it does not
    call [onSuccess] and leaves the text "No data returned by GraphQL API".
    In particular, for the envelope [{data: {customer: null}}] of the
    customer lookup the callback is called with [{customer: null}] and the
    customer slot becomes [null], whatever it held. *)
Theorem run_success_truthy_data
  {T : Type} {B : Builtins} {TT : Truthy T}
  (task : M T (GraphQLResponse T)) (onSuccess : T -> M T unit)
  (w w2 : World) (tr : Trace T) (payload : GraphQLResponse T) (d : T) :
  task (started w) = (tr, w2, inr payload) ->
  errors payload = None \/ errors payload = Some [] ->
  data payload = Some d ->
  (truthy d = true ->
   onSuccessCalls (steps (run task onSuccess) w) = [d]
   /\ (outcome (onSuccess d) w2 = inr tt ->
       after (run task onSuccess) w = finished (after (onSuccess d) w2)
       /\ (error (app w2) = error (app (started w)) ->
           error (app (after (onSuccess d) w2)) = error (app w2) ->
           error (app (after (run task onSuccess) w)) = "")))
  /\ (truthy d = false ->
      onSuccessCalls (steps (run task onSuccess) w) = []
      /\ error (app (after (run task onSuccess) w))
         = "No data returned by GraphQL API"
      /\ callOutcome task w = MissingData)
  /\ (forall (lookup : M CustomerData (GraphQLResponse CustomerData))
             (v v2 : World) (t : Trace CustomerData),
        lookup (started v)
          = (t, v2, inr {| data := Some {| customer := None |};
                           errors := None |}) ->
        onSuccessCalls (steps (run lookup storeCustomer) v)
          = [ {| customer := None |} ]
        /\ customerResult (results (app (after (run lookup storeCustomer) v)))
           = None).
Proof.
  intros Htask E D. split; [| split].
  - intros Y. split.
    + unfold steps. rewrite (run_task_returns task onSuccess _ _ _ _ Htask).
      rewrite (dispatch_data onSuccess payload d w2 (hasErrors_none _ E) D Y).
      unfold callOnSuccess.
      destruct (onSuccess d w2) as [[tc w3] [e | u]]; reflexivity.
    + intros Hret. unfold after, outcome in *.
      rewrite (run_task_returns task onSuccess _ _ _ _ Htask).
      rewrite (dispatch_data onSuccess payload d w2 (hasErrors_none _ E) D Y).
      unfold callOnSuccess.
      destruct (onSuccess d w2) as [[tc w3] [e | u]]; simpl in *;
        [discriminate |].
      split; [reflexivity |]. intros H1 H2. rewrite H2, H1. reflexivity.
  - intros N. unfold steps, after, callOutcome, outcome, outcomeOf.
    rewrite (run_task_returns task onSuccess _ _ _ _ Htask), Htask.
    rewrite (dispatch_no_data onSuccess payload w2 (hasErrors_none _ E)).
    + simpl. rewrite (hasErrors_none _ E), D, N. repeat split; reflexivity.
    + rewrite D. exact N.
  - intros lookup v v2 t Hl. unfold steps, after.
    rewrite (run_task_returns lookup storeCustomer _ _ _ _ Hl).
    split; reflexivity.
Qed.

Lemma run_success_truthy_data_witness :
  (onSuccessCalls (steps (run (B := exampleBuiltins) (ret customerGone)
                              storeCustomer) usedWorld)
     = [ {| customer := None |} ]
   /\ customerResult (results (app usedWorld)) = Some alice
   /\ customerResult
        (results (app (after (run (B := exampleBuiltins) (ret customerGone)
                                  storeCustomer) usedWorld))) = None
   /\ error (app (after (run (B := exampleBuiltins) (ret customerGone)
                             storeCustomer) usedWorld)) = "")
  /\ (onSuccessCalls (steps (run (B := exampleBuiltins)
                               (ret emptyTextEnvelope) (fun _ => ret tt))
                            usedWorld) = []
      /\ error (app (after (run (B := exampleBuiltins)
                               (ret emptyTextEnvelope) (fun _ => ret tt))
                          usedWorld))
         = "No data returned by GraphQL API").
Proof.
  split.
  - pose proof (run_success_truthy_data (B := exampleBuiltins)
                  (ret customerGone) storeCustomer usedWorld
                  (started usedWorld) [] customerGone {| customer := None |}
                  eq_refl (or_introl eq_refl) eq_refl) as [Ht _].
    destruct (Ht eq_refl) as [Hc Hr].
    split; [exact Hc |]. split; [reflexivity |].
    destruct (Hr eq_refl) as [Hw He]. split.
    + rewrite Hw. reflexivity.
    + apply He; reflexivity.
  - pose proof (run_success_truthy_data (B := exampleBuiltins)
                  (ret emptyTextEnvelope) (fun _ => ret tt) usedWorld
                  (started usedWorld) [] emptyTextEnvelope ""
                  eq_refl (or_introl eq_refl) eq_refl) as [_ [Hf _]].
    destruct (Hf eq_refl) as [Hc [He _]]. split; assumption.
Defined.

(** C2, as stated, fails: an envelope without errors whose [data] field is
    present but falsy (here [false], for a call typed [run<boolean>]) takes
    the missing-data branch, so [onSuccess] is not called and the error text
    is not empty. *)
Lemma run_present_falsy_data :
  data falseEnvelope = Some false
  /\ errors falseEnvelope = None
  /\ onSuccessCalls (steps (run (B := exampleBuiltins) (ret falseEnvelope)
                                (fun _ => ret tt)) initialWorld) = []
  /\ error (app (after (run (B := exampleBuiltins) (ret falseEnvelope)
                            (fun _ => ret tt)) initialWorld))
     = "No data returned by GraphQL API".
Proof. repeat split; reflexivity. Qed.

(** C10.  When the callback throws during a successful call, no exception
    leaves [run]: the error text becomes the message of the thrown [Error],
    or the string conversion of any other thrown value, the busy flag ends
    false, and the text is the one a task throwing the same value gives. *)
Theorem run_callback_throws
  {T : Type} {B : Builtins} {TT : Truthy T}
  (task : M T (GraphQLResponse T)) (onSuccess : T -> M T unit)
  (w w2 w3 : World) (tr tc : Trace T) (payload : GraphQLResponse T) (d : T)
  (e : Thrown) :
  task (started w) = (tr, w2, inr payload) ->
  errors payload = None \/ errors payload = Some [] ->
  data payload = Some d ->
  truthy d = true ->
  onSuccess d w2 = (tc, w3, inl e) ->
  outcome (run task onSuccess) w = inr tt
  /\ error (app (after (run task onSuccess) w))
     = match e with ThrownError m => m | ThrownValue v => String_ v end
  /\ loading (app (after (run task onSuccess) w)) = false
  /\ (forall (failing : M T (GraphQLResponse T)) (v v2 : World) (t : Trace T),
        failing (started v) = (t, v2, inl e) ->
        error (app (after (run failing onSuccess) v))
        = error (app (after (run task onSuccess) w))).
Proof.
  intros Htask E D Y Hcb.
  assert (Hrun : run task onSuccess w =
            ([EvSetLoading true; EvSetError ""; EvTask tr; EvOnSuccess d tc;
              EvSetError (errorMessage e); EvSetLoading false],
             finished (onApp (withError (errorMessage e)) w3), inr tt)).
  { rewrite (run_task_returns task onSuccess _ _ _ _ Htask).
    rewrite (dispatch_data onSuccess payload d w2 (hasErrors_none _ E) D Y).
    unfold callOnSuccess. rewrite Hcb. reflexivity. }
  unfold outcome, after. rewrite Hrun. simpl.
  repeat split; try reflexivity.
  intros failing v v2 t Hf.
  rewrite (run_task_throws failing onSuccess _ _ _ _ Hf). reflexivity.
Qed.

Lemma run_callback_throws_witness :
  outcome (run (B := exampleBuiltins) (ret customerGone)
               (fun _ => throw (ThrownError "render failed")))
          usedWorld = inr tt
  /\ error (app (after (run (B := exampleBuiltins) (ret customerGone)
                            (fun _ => throw (ThrownError "render failed")))
                       usedWorld)) = "render failed"
  /\ loading (app (after (run (B := exampleBuiltins) (ret customerGone)
                              (fun _ => throw (ThrownError "render failed")))
                         usedWorld)) = false.
Proof.
  pose proof (run_callback_throws (B := exampleBuiltins)
                (ret customerGone)
                (fun _ => throw (ThrownError "render failed"))
                usedWorld (started usedWorld) (started usedWorld) [] []
                customerGone {| customer := None |}
                (ThrownError "render failed")
                eq_refl (or_introl eq_refl) eq_refl eq_refl eq_refl)
    as [H1 [H2 [H3 _]]].
  repeat split; assumption.
Defined.

(** ** Properties of [gqlRequest] *)

(** The request [gqlRequest] builds, and the whole of what it does. *)
Lemma gqlRequest_settles
  {T : Type} {B : Builtins} {J : JsonBody T}
  (server : Server) (query : string) (variables : list (string * JsValue))
  (w : World) :
  let req :=
    {| url := "/graphql";
       method := "POST";
       headers := [("content-type", "application/json")];
       body := JSON_stringify
                 (VObject [("query", VString query);
                           ("variables", VObject variables)]) |} in
  gqlRequest (T := T) server query variables w
  = ([EvFetch req],
     {| app := app w; sent := sent w ++ [req] |},
     match server (sent w) req with
     | inl e => inl e
     | inr response => decodeJson (responseBody response)
     end).
Proof.
  intros req. unfold gqlRequest, bind, fetch, Response_json. fold req.
  destruct (server (sent w) req) as [e | response]; reflexivity.
Qed.

(** [run] begins with its two setters and then calls the task. *)
Lemma run_steps_prefix
  {T : Type} {B : Builtins} {TT : Truthy T}
  (task : M T (GraphQLResponse T)) (onSuccess : T -> M T unit) (w : World) :
  exists rest,
    steps (run task onSuccess) w
      = EvSetLoading true :: EvSetError ""
          :: EvTask (steps task (started w)) :: rest.
Proof.
  unfold steps.
  destruct (task (started w)) as [[tr w2] [e | payload]] eqn:Htask.
  - rewrite (run_task_throws task onSuccess _ _ _ _ Htask). simpl.
    eexists. reflexivity.
  - rewrite (run_task_returns task onSuccess _ _ _ _ Htask).
    destruct (dispatch onSuccess payload w2) as [[td w3] [e | u]]; simpl;
      eexists; reflexivity.
Qed.

(** C7.  The first two steps of [run] set the busy flag and empty the error
    text; the call of the task is the third step, and the task runs in a
    world where the flag is set and the error text is empty.  When the task
    is a [gqlRequest], its [fetch] lies inside that third step. *)
Theorem run_prepares_before_task
  {T : Type} {B : Builtins} {TT : Truthy T}
  (task : M T (GraphQLResponse T)) (onSuccess : T -> M T unit) (w : World) :
  (exists rest,
     steps (run task onSuccess) w
       = EvSetLoading true :: EvSetError ""
           :: EvTask (steps task (started w)) :: rest)
  /\ loading (app (started w)) = true
  /\ error (app (started w)) = ""
  /\ (forall (J : JsonBody T) (server : Server) (query : string)
             (variables : list (string * JsValue)),
        exists rest,
          steps (run (gqlRequest server query variables) onSuccess) w
          = EvSetLoading true :: EvSetError ""
              :: EvTask
                   [EvFetch
                      {| url := "/graphql";
                         method := "POST";
                         headers := [("content-type", "application/json")];
                         body := JSON_stringify
                                   (VObject [("query", VString query);
                                             ("variables",
                                              VObject variables)]) |}]
              :: rest).
Proof.
  split; [apply run_steps_prefix |]. split; [reflexivity |].
  split; [reflexivity |].
  intros J server query variables.
  destruct (run_steps_prefix (gqlRequest server query variables) onSuccess w)
    as [rest Hrest].
  exists rest. rewrite Hrest. unfold steps at 1.
  rewrite (gqlRequest_settles server query variables (started w)).
  reflexivity.
Qed.

(** C8.  For every operation text and variables, [gqlRequest] calls [fetch]
    exactly once: a POST to [/graphql] with the header
    [content-type: application/json] and, as body, [JSON.stringify] of the
    object with the fields [query] and [variables].  It touches no state of
    the component, and it settles as [fetch] rejected or as the decoding of
    the response body settled, whatever envelope that is. *)
Theorem gqlRequest_single_post
  {T : Type} {B : Builtins} {J : JsonBody T}
  (server : Server) (query : string) (variables : list (string * JsValue))
  (w : World) :
  let req :=
    {| url := "/graphql";
       method := "POST";
       headers := [("content-type", "application/json")];
       body := JSON_stringify
                 (VObject [("query", VString query);
                           ("variables", VObject variables)]) |} in
  steps (T := T) (gqlRequest server query variables) w = [EvFetch req]
  /\ fetches (steps (T := T) (gqlRequest server query variables) w) = [req]
  /\ sent (after (T := T) (gqlRequest server query variables) w)
     = sent w ++ [req]
  /\ app (after (T := T) (gqlRequest server query variables) w) = app w
  /\ outcome (T := T) (gqlRequest server query variables) w
     = match server (sent w) req with
       | inl e => inl e
       | inr response => decodeJson (responseBody response)
       end.
Proof.
  intros req. unfold steps, after, outcome.
  rewrite (gqlRequest_settles server query variables w). fold req.
  repeat split; reflexivity.
Qed.

(** An envelope with errors and one with data come back alike, as decoded. *)
Example gqlRequest_hands_on_envelope {B : Builtins}
  (payload : GraphQLResponse CustomerData) :
  outcome (gqlRequest (J := fun _ => inr payload)
             (fun _ _ => inr {| responseBody := "" |})
             customerQuery (customerVariables initialForm)) initialWorld
  = inr payload.
Proof. reflexivity. Qed.

(** [gqlRequest] leaves the state of the component alone. *)
Lemma gqlRequest_app
  {T : Type} {B : Builtins} {J : JsonBody T}
  (server : Server) (query : string) (variables : list (string * JsValue))
  (w : World) :
  app (after (T := T) (gqlRequest server query variables) w) = app w.
Proof.
  unfold after. rewrite (gqlRequest_settles server query variables w).
  reflexivity.
Qed.

(** Against a deterministic server the outcome of [gqlRequest] is the same
    in every world. *)
Lemma gqlRequest_outcome_deterministic
  {T : Type} {B : Builtins} {J : JsonBody T}
  (server : Server) (query : string) (variables : list (string * JsValue))
  (w w' : World) :
  deterministic server ->
  outcome (T := T) (gqlRequest server query variables) w
  = outcome (T := T) (gqlRequest server query variables) w'.
Proof.
  intros Hdet. unfold outcome.
  rewrite (gqlRequest_settles server query variables w).
  rewrite (gqlRequest_settles server query variables w'). simpl.
  rewrite (Hdet (sent w) (sent w')). reflexivity.
Qed.

(** ** What [run] leaves alone *)

(** A part of the component state that neither setter of [run] writes, and
    that the task and the callback leave alone, is the same after [run]. *)
Lemma run_preserves
  {T X : Type} {B : Builtins} {TT : Truthy T}
  (part : AppState -> X)
  (task : M T (GraphQLResponse T)) (onSuccess : T -> M T unit) :
  (forall b s, part (withLoading b s) = part s) ->
  (forall e s, part (withError e s) = part s) ->
  (forall w, part (app (after task w)) = part (app w)) ->
  (forall d w, part (app (after (onSuccess d) w)) = part (app w)) ->
  forall w, part (app (after (run task onSuccess) w)) = part (app w).
Proof.
  intros HL HE Ht Hc w.
  assert (Hs : part (app (started w)) = part (app w)).
  { unfold started. simpl. rewrite HE, HL. reflexivity. }
  specialize (Ht (started w)). unfold after in *.
  destruct (task (started w)) as [[tr w2] [e | payload]] eqn:Htask;
    simpl in Ht.
  - rewrite (run_task_throws task onSuccess _ _ _ _ Htask). simpl.
    rewrite HL, HE, Ht. exact Hs.
  - rewrite (run_task_returns task onSuccess _ _ _ _ Htask).
    assert (Hd : part (app (snd (fst (dispatch onSuccess payload w2))))
                 = part (app w2)).
    { unfold dispatch. destruct (hasErrors payload); [simpl; apply HE |].
      destruct (data payload) as [d |]; [| simpl; apply HE].
      destruct (truthy d); simpl; [| apply HE].
      specialize (Hc d w2). unfold callOnSuccess.
      destruct (onSuccess d w2) as [[tc w3] rc]. exact Hc. }
    destruct (dispatch onSuccess payload w2) as [[td w3] [e | u]];
      simpl in *.
    + rewrite HL, HE, Hd, Ht. exact Hs.
    + rewrite HL, Hd, Ht. exact Hs.
Qed.

(** When the call does not succeed, [run] leaves the result slots as the
    task left them. *)
Lemma run_failure_results
  {T : Type} {B : Builtins} {TT : Truthy T}
  (task : M T (GraphQLResponse T)) (onSuccess : T -> M T unit) (w : World) :
  callOutcome task w <> Success ->
  results (app (after (run task onSuccess) w))
  = results (app (after task (started w))).
Proof.
  unfold callOutcome, outcome, after, outcomeOf.
  destruct (task (started w)) as [[tr w2] [e | payload]] eqn:Htask; simpl.
  - intros _. rewrite (run_task_throws task onSuccess _ _ _ _ Htask).
    reflexivity.
  - intros Hk. rewrite (run_task_returns task onSuccess _ _ _ _ Htask).
    unfold dispatch. destruct (hasErrors payload); [reflexivity |].
    destruct (data payload) as [d |]; [| reflexivity].
    destruct (truthy d); simpl in *; [congruence | reflexivity].
Qed.

(** When the call succeeds, [run] leaves the result slots as the callback
    left them. *)
Lemma run_success_results
  {T : Type} {B : Builtins} {TT : Truthy T}
  (task : M T (GraphQLResponse T)) (onSuccess : T -> M T unit) (w : World)
  (payload : GraphQLResponse T) (d : T) :
  outcome task (started w) = inr payload ->
  data payload = Some d ->
  callOutcome task w = Success ->
  results (app (after (run task onSuccess) w))
  = results (app (after (onSuccess d) (after task (started w)))).
Proof.
  unfold callOutcome, outcome, after, outcomeOf.
  destruct (task (started w)) as [[tr w2] r] eqn:Htask; simpl.
  intros -> D.
  rewrite (run_task_returns task onSuccess _ _ _ _ Htask).
  unfold dispatch. destruct (hasErrors payload); [discriminate |].
  rewrite D. destruct (truthy d); simpl; [| discriminate].
  intros _. unfold callOnSuccess.
  destruct (onSuccess d w2) as [[tc w3] [e | u]]; reflexivity.
Qed.

(** ** The handlers *)

Section HandlerFacts.
Context {B : Builtins}.
Context {JCustomer : JsonBody CustomerData} {JCatalog : JsonBody CatalogData}
        {JQuote : JsonBody QuoteData} {JOrder : JsonBody PlaceOrderData}
        {JReturn : JsonBody ScheduleReturnData}.
Variable server : Server.

(** A handler is [run] on [gqlRequest]; a part of the state that its
    callback leaves alone is the same after the click. *)
Lemma handler_preserves
  {T X : Type} {TT : Truthy T} {J : JsonBody T}
  (part : AppState -> X) (query : string)
  (variables : Form -> list (string * JsValue))
  (onSuccess : T -> M T unit) (w : World) :
  (forall b s, part (withLoading b s) = part s) ->
  (forall e s, part (withError e s) = part s) ->
  (forall d v, part (app (after (onSuccess d) v)) = part (app v)) ->
  part (app (snd (fst (run (gqlRequest server query (variables (form (app w))))
                           onSuccess w))))
  = part (app w).
Proof.
  intros HL HE Hc.
  apply (run_preserves part
           (gqlRequest server query (variables (form (app w)))) onSuccess
           HL HE).
  - intros v. rewrite gqlRequest_app. reflexivity.
  - exact Hc.
Qed.

Ltac handler_frame :=
  unfold clicked, after, loadCustomer, loadCatalog, getQuote, placeOrderClick,
    scheduleReturnClick;
  lazymatch goal with
  | |- ?slot (results (app _)) = ?slot (results (app _)) =>
      apply (handler_preserves (fun s => slot (results s))); reflexivity
  | |- form (app _) = form (app _) =>
      apply (handler_preserves form); reflexivity
  end.

Lemma clicked_others_unchanged (op : Operation) (w : World) :
  othersUnchanged op (results (app w)) (results (app (clicked server op w))).
Proof.
  destruct op; unfold othersUnchanged; repeat split; intros Hop;
    try (exfalso; apply Hop; reflexivity); handler_frame.
Qed.

(** A click whose call does not succeed leaves every result slot as it
    was. *)
Lemma clicked_failure_results (op : Operation) (w : World) :
  clickOutcome server op w <> Success ->
  results (app (clicked server op w)) = results (app w).
Proof.
  destruct op; unfold clickOutcome, clicked, after, loadCustomer, loadCatalog,
    getQuote, placeOrderClick, scheduleReturnClick; intros Hk;
    (etransitivity;
     [ exact (run_failure_results _ _ w Hk)
     | rewrite gqlRequest_app; reflexivity ]).
Qed.

Lemma clicked_form (op : Operation) (w : World) :
  form (app (clicked server op w)) = form (app w).
Proof. destruct op; handler_frame. Qed.

(** Against a deterministic server, a second click on the same button ends
    as the first did. *)
Lemma clickOutcome_repeatable (op : Operation) (w : World) :
  deterministic server ->
  clickOutcome server op (clicked server op w) = clickOutcome server op w.
Proof.
  intros Hdet. unfold clickOutcome. rewrite (clicked_form op w).
  destruct op; unfold callOutcome; f_equal;
    apply gqlRequest_outcome_deterministic; exact Hdet.
Qed.
End HandlerFacts.

(** ** Outcomes *)

(** [callOutcome] names the branch [run] takes: what [run] does, read off
    its steps and the error text it leaves, per outcome. *)
Lemma run_by_outcome
  {T : Type} {B : Builtins} {TT : Truthy T}
  (task : M T (GraphQLResponse T)) (onSuccess : T -> M T unit) (w : World) :
  match callOutcome task w with
  | Success =>
      exists payload d,
        outcome task (started w) = inr payload /\ data payload = Some d
        /\ onSuccessCalls (steps (run task onSuccess) w) = [d]
  | ApplicationError =>
      exists payload,
        outcome task (started w) = inr payload
        /\ onSuccessCalls (steps (run task onSuccess) w) = []
        /\ error (app (after (run task onSuccess) w))
           = join newline (errorMessages payload)
  | MissingData =>
      onSuccessCalls (steps (run task onSuccess) w) = []
      /\ error (app (after (run task onSuccess) w)) = noDataText
  | TransportError =>
      exists e,
        outcome task (started w) = inl e
        /\ onSuccessCalls (steps (run task onSuccess) w) = []
        /\ error (app (after (run task onSuccess) w)) = errorMessage e
  end.
Proof.
  unfold callOutcome, outcome, steps, after, outcomeOf.
  destruct (task (started w)) as [[tr w2] [e | payload]] eqn:Htask; simpl.
  - rewrite (run_task_throws task onSuccess _ _ _ _ Htask). simpl.
    exists e. repeat split; reflexivity.
  - rewrite (run_task_returns task onSuccess _ _ _ _ Htask). unfold dispatch.
    destruct (hasErrors payload).
    + exists payload. repeat split; reflexivity.
    + destruct (data payload) as [d |] eqn:D; [| split; reflexivity].
      destruct (truthy d); simpl; [| split; reflexivity].
      exists payload, d. unfold callOnSuccess.
      destruct (onSuccess d w2) as [[tc w3] [e | u]];
        repeat split; (reflexivity || exact D).
Qed.

(** C6.  Let the task write no result slot, as [gqlRequest] does not.  When
    the call does not succeed (application error, missing data or transport
    error), every result slot is after [run] what it was before.  When it
    succeeds, the slots are after [run] what the callback made of them, so
    the callback is the only writer.  And a click on the button of one
    operation, however its call ends, leaves the slots of the four other
    operations unchanged, and leaves all five unchanged when its call does
    not succeed. *)
Theorem run_result_slots
  {T : Type} {B : Builtins} {TT : Truthy T}
  (task : M T (GraphQLResponse T)) (onSuccess : T -> M T unit) (w : World) :
  results (app (after task (started w))) = results (app w) ->
  (callOutcome task w <> Success ->
   results (app (after (run task onSuccess) w)) = results (app w))
  /\ (forall payload d,
        outcome task (started w) = inr payload ->
        data payload = Some d ->
        callOutcome task w = Success ->
        results (app (after (run task onSuccess) w))
        = results (app (after (onSuccess d) (after task (started w)))))
  /\ (forall (JCustomer : JsonBody CustomerData)
             (JCatalog : JsonBody CatalogData) (JQuote : JsonBody QuoteData)
             (JOrder : JsonBody PlaceOrderData)
             (JReturn : JsonBody ScheduleReturnData)
             (server : Server) (op : Operation) (v : World),
        othersUnchanged op (results (app v))
          (results (app (clicked server op v)))
        /\ (clickOutcome server op v <> Success ->
            results (app (clicked server op v)) = results (app v))).
Proof.
  intros Htask. split; [| split].
  - intros Hk. rewrite (run_failure_results task onSuccess w Hk). exact Htask.
  - intros payload d Hp Hd Hk.
    apply (run_success_results task onSuccess w payload d Hp Hd Hk).
  - intros. split.
    + apply clicked_others_unchanged.
    + apply clicked_failure_results.
Qed.

Lemma run_result_slots_witness :
  callOutcome (ret notFound) usedWorld = ApplicationError
  /\ results (app (after (run (B := exampleBuiltins) (ret notFound)
                              storeCustomer) usedWorld))
     = results (app usedWorld).
Proof.
  split; [reflexivity |].
  apply (proj1 (run_result_slots (B := exampleBuiltins) (ret notFound)
                  storeCustomer usedWorld eq_refl)).
  discriminate.
Defined.

(** [run] ends as the outcome of its task says, and as no other. *)
Lemma run_endsAs
  {T : Type} {B : Builtins} {TT : Truthy T}
  (task : M T (GraphQLResponse T)) (onSuccess : T -> M T unit) (w : World) :
  endsAs (callOutcome task w) task onSuccess w.
Proof.
  unfold endsAs, callOutcome, outcomeOf, steps, after, outcome.
  destruct (task (started w)) as [[tr w2] [e | payload]] eqn:Htask;
    cbn [fst snd].
  - exists e. split; [reflexivity |].
    rewrite (run_task_throws task onSuccess _ _ _ _ Htask). reflexivity.
  - rewrite (run_task_returns task onSuccess _ _ _ _ Htask). unfold dispatch.
    destruct (hasErrors payload) eqn:HE.
    + exists payload. repeat split; reflexivity || assumption.
    + destruct (data payload) as [d |] eqn:D.
      * destruct (truthy d) eqn:Y; cbn [negb].
        -- exists payload, d. unfold callOnSuccess.
           destruct (onSuccess d w2) as [[tc w3] [e | u]];
             repeat split; reflexivity || assumption.
        -- exists payload. split; [reflexivity |]. split; [exact HE |].
           split; [| reflexivity].
           right. exists d. split; [exact D | exact Y].
      * exists payload. split; [reflexivity |]. split; [exact HE |].
        split; [| reflexivity]. left. exact D.
Qed.

Lemma endsAs_callOutcome
  {T : Type} {B : Builtins} {TT : Truthy T}
  (k : CallOutcome) (task : M T (GraphQLResponse T))
  (onSuccess : T -> M T unit) (w : World) :
  endsAs k task onSuccess w -> callOutcome task w = k.
Proof.
  unfold endsAs, callOutcome, outcomeOf. destruct k.
  - intros [payload [d [Ho [HE [D [Y _]]]]]]. rewrite Ho, HE, D, Y.
    reflexivity.
  - intros [payload [Ho [HE _]]]. rewrite Ho, HE. reflexivity.
  - intros [payload [Ho [HE [[D | [d [D Y]]] _]]]]; rewrite Ho, HE, D;
      [| rewrite Y]; reflexivity.
  - intros [e [Ho _]]. rewrite Ho. reflexivity.
Qed.

Section RepeatFacts.
Context {B : Builtins}.
Context {JCustomer : JsonBody CustomerData} {JCatalog : JsonBody CatalogData}
        {JQuote : JsonBody QuoteData} {JOrder : JsonBody PlaceOrderData}
        {JReturn : JsonBody ScheduleReturnData}.
Variable server : Server.

Lemma handler_endsAs (op : Operation) (w : World) :
  clickEndsAs server (clickOutcome server op w) op w.
Proof.
  destruct op; unfold clickEndsAs, clickOutcome; apply run_endsAs.
Qed.

(** Against a deterministic server the handler, run again in the world it
    left, ends as it did the first time. *)
Lemma handler_endsAs_again (op : Operation) (w : World) :
  deterministic server ->
  clickEndsAs server (clickOutcome server op w) op (clicked server op w).
Proof.
  intros Hdet. rewrite <- (clickOutcome_repeatable server op w Hdet).
  apply handler_endsAs.
Qed.
End RepeatFacts.

(** C9.  Against a deterministic server, let a call be made with [run] for
    an operation text and variables, and made again in the world the first
    call left, whatever the callback did in between.  Then there is one
    outcome [k] such that both invocations of [run] end as [k]: in both the
    task is called and settles alike, and [run] takes the steps of the
    branch for [k]; neither ends as another outcome, so nothing the first
    invocation left behind changes what the second does with the answer.
    The same holds for the handler of each of the five buttons run a second
    time. *)
Theorem run_outcome_repeatable
  {T : Type} {B : Builtins} {TT : Truthy T} {J : JsonBody T}
  (server : Server) (query : string) (variables : list (string * JsValue))
  (onSuccess : T -> M T unit) (w : World) :
  deterministic server ->
  (exists k,
     endsAs k (gqlRequest server query variables) onSuccess w
     /\ endsAs k (gqlRequest server query variables) onSuccess
          (after (run (gqlRequest server query variables) onSuccess) w)
     /\ (forall k',
          endsAs k' (gqlRequest server query variables) onSuccess w
          \/ endsAs k' (gqlRequest server query variables) onSuccess
               (after (run (gqlRequest server query variables) onSuccess) w)
          -> k' = k))
  /\ callOutcome (gqlRequest server query variables)
       (after (run (gqlRequest server query variables) onSuccess) w)
     = callOutcome (gqlRequest server query variables) w
  /\ (forall (JCustomer : JsonBody CustomerData)
             (JCatalog : JsonBody CatalogData) (JQuote : JsonBody QuoteData)
             (JOrder : JsonBody PlaceOrderData)
             (JReturn : JsonBody ScheduleReturnData)
             (op : Operation) (v : World),
        (exists k,
           clickEndsAs server k op v
           /\ clickEndsAs server k op (clicked server op v))
        /\ clickOutcome server op (clicked server op v)
           = clickOutcome server op v).
Proof.
  intros Hdet.
  assert (Hsame :
            callOutcome (gqlRequest server query variables)
              (after (run (gqlRequest server query variables) onSuccess) w)
            = callOutcome (gqlRequest server query variables) w).
  { unfold callOutcome. f_equal.
    apply gqlRequest_outcome_deterministic. exact Hdet. }
  split; [| split].
  - exists (callOutcome (gqlRequest server query variables) w).
    split; [apply run_endsAs |]. split.
    + rewrite <- Hsame. apply run_endsAs.
    + intros k' [H | H]; apply endsAs_callOutcome in H; congruence.
  - exact Hsame.
  - intros. split.
    + exists (clickOutcome server op v). split.
      * apply handler_endsAs.
      * apply handler_endsAs_again. exact Hdet.
    + apply clickOutcome_repeatable. exact Hdet.
Qed.

Lemma run_outcome_repeatable_witness :
  deterministic emptyServer
  /\ endsAs (B := exampleBuiltins) MissingData
       (gqlRequest (B := exampleBuiltins) (J := alwaysEmpty)
          emptyServer customerQuery (customerVariables initialForm))
       storeCustomer
       (after (run (B := exampleBuiltins)
                   (gqlRequest (B := exampleBuiltins) (J := alwaysEmpty)
                      emptyServer customerQuery
                      (customerVariables initialForm))
                   storeCustomer) initialWorld).
Proof.
  assert (Hdet : deterministic emptyServer) by (intros h h' req; reflexivity).
  split; [exact Hdet |].
  destruct (proj1 (run_outcome_repeatable (B := exampleBuiltins)
                     (J := alwaysEmpty) emptyServer customerQuery
                     (customerVariables initialForm) storeCustomer
                     initialWorld Hdet))
    as [k [Hfirst [Hsecond Hunique]]].
  assert (Hk : MissingData = k).
  { apply Hunique. left. exists emptyEnvelope.
    repeat split; try reflexivity. left. reflexivity. }
  rewrite Hk. exact Hsecond.
Defined.

(** ** The variables of the handlers *)

Lemma parseIntOrDefault_isFinite {B : Builtins} (value : string)
  (fallback : number) :
  Number_isFinite fallback = true ->
  Number_isFinite (parseIntOrDefault value fallback) = true.
Proof.
  intros Hf. unfold parseIntOrDefault.
  destruct (Number_isFinite (Number_parseInt value 10)) eqn:Hp; assumption.
Qed.

(** X1.  [parseIntOrDefault] returns the number [Number.parseInt] reads in
    the text when that number is finite, and the fallback when it is NaN or
    an infinity; so with a finite fallback the result is finite for every
    input. *)
Theorem parseIntOrDefault_finite {B : Builtins} (value : string)
  (fallback : number) :
  Number_isFinite fallback = true ->
  Number_isFinite (parseIntOrDefault value fallback) = true
  /\ (Number_isFinite (Number_parseInt value 10) = true ->
      parseIntOrDefault value fallback = Number_parseInt value 10)
  /\ (Number_isFinite (Number_parseInt value 10) = false ->
      parseIntOrDefault value fallback = fallback).
Proof.
  intros Hf. split; [| split].
  - apply parseIntOrDefault_isFinite. exact Hf.
  - intros Hp. unfold parseIntOrDefault. rewrite Hp. reflexivity.
  - intros Hp. unfold parseIntOrDefault. rewrite Hp. reflexivity.
Qed.

Lemma parseIntOrDefault_finite_witness :
  (Number_isFinite (parseIntOrDefault (B := parsingBuiltins) "7" 5%float)
     = true
   /\ parseIntOrDefault (B := parsingBuiltins) "7" 5%float = 7%float)
  /\ (Number_isFinite (parseIntOrDefault (B := parsingBuiltins) "seven"
                         5%float) = true
      /\ parseIntOrDefault (B := parsingBuiltins) "seven" 5%float = 5%float).
Proof.
  split.
  - destruct (parseIntOrDefault_finite (B := parsingBuiltins) "7" 5%float
                eq_refl) as [Hfin [Hparsed _]].
    split; [exact Hfin | exact (Hparsed eq_refl)].
  - destruct (parseIntOrDefault_finite (B := parsingBuiltins) "seven"
                5%float eq_refl) as [Hfin [_ Hfallback]].
    split; [exact Hfin | exact (Hfallback eq_refl)].
Defined.

(** X2.  Every number a handler puts into the variables of its request is
    finite, whatever the text inputs hold: the limit of the catalog query
    and the quantities of the quote, the order and the return. *)
Theorem handler_numbers_finite {B : Builtins} (op : Operation) (f : Form) :
  Forall (fun n => Number_isFinite n = true)
         (numbersIn (VObject (variablesOf op f))).
Proof.
  destruct op; simpl; try destruct (truthy (category f)); simpl;
    repeat constructor; apply parseIntOrDefault_isFinite; reflexivity.
Qed.

(** X3.  The catalog query never carries an empty category: an empty input
    is sent as [null], any other input as it is; its second variable is the
    limit, 5 unless the limit input parses to a finite number. *)
Theorem catalog_category_null_or_text {B : Builtins} (f : Form) :
  exists c,
    catalogVariables f
      = [("category", c);
         ("limit", VNumber (parseIntOrDefault (catalogLimit f) 5%float))]
    /\ c <> VString ""
    /\ (category f = "" -> c = VNull)
    /\ (category f <> "" -> c = VString (category f)).
Proof.
  unfold catalogVariables. destruct (category f) as [| a rest] eqn:E; simpl.
  - exists VNull. repeat split; congruence.
  - exists (VString (String a rest)). repeat split; congruence.
Qed.

(** ** Clicks *)

(** [run] sends what its task sends, when the callback sends nothing. *)
Lemma run_sent
  {T : Type} {B : Builtins} {TT : Truthy T}
  (task : M T (GraphQLResponse T)) (onSuccess : T -> M T unit) (w : World) :
  (forall d v, sent (after (onSuccess d) v) = sent v) ->
  sent (after (run task onSuccess) w) = sent (after task (started w)).
Proof.
  intros Hc. unfold after in *.
  destruct (task (started w)) as [[tr w2] [e | payload]] eqn:Htask.
  - rewrite (run_task_throws task onSuccess _ _ _ _ Htask). reflexivity.
  - rewrite (run_task_returns task onSuccess _ _ _ _ Htask).
    assert (Hd : sent (snd (fst (dispatch onSuccess payload w2))) = sent w2).
    { unfold dispatch. destruct (hasErrors payload); [reflexivity |].
      destruct (data payload) as [d |]; [| reflexivity].
      destruct (truthy d); simpl; [| reflexivity].
      specialize (Hc d w2). unfold callOnSuccess.
      destruct (onSuccess d w2) as [[tc w3] rc]. exact Hc. }
    destruct (dispatch onSuccess payload w2) as [[td w3] [e | u]];
      simpl in *; exact Hd.
Qed.

(** [run] leaves the busy flag cleared. *)
Lemma run_ends_idle
  {T : Type} {B : Builtins} {TT : Truthy T}
  (task : M T (GraphQLResponse T)) (onSuccess : T -> M T unit) (w : World) :
  loading (app (after (run task onSuccess) w)) = false.
Proof.
  unfold after.
  destruct (task (started w)) as [[tr w2] [e | payload]] eqn:Htask.
  - rewrite (run_task_throws task onSuccess _ _ _ _ Htask). reflexivity.
  - rewrite (run_task_returns task onSuccess _ _ _ _ Htask).
    destruct (dispatch onSuccess payload w2) as [[td w3] [e | u]];
      reflexivity.
Qed.

Section ClickRequests.
Context {B : Builtins}.
Context {JCustomer : JsonBody CustomerData} {JCatalog : JsonBody CatalogData}
        {JQuote : JsonBody QuoteData} {JOrder : JsonBody PlaceOrderData}
        {JReturn : JsonBody ScheduleReturnData}.
Variable server : Server.

(** A click adds the request of its button to what was sent. *)
Lemma clicked_sent (op : Operation) (w : World) :
  sent (clicked server op w) = sent w ++ [requestOf op (form (app w))].
Proof.
  destruct op; unfold clicked, loadCustomer, loadCatalog, getQuote,
    placeOrderClick, scheduleReturnClick;
    (etransitivity; [apply run_sent; reflexivity |]);
    unfold after; rewrite gqlRequest_settles; reflexivity.
Qed.
End ClickRequests.

(** X4.  While the component is not busy, a click on any of the five
    buttons sends exactly one request, however its call ends: the POST to
    [/graphql] whose body holds the operation text of the button and the
    variables made from the text inputs.  The click leaves the inputs as
    they were and the busy flag cleared.  While the component is busy the
    buttons are disabled, and a click changes nothing and sends nothing. *)
Theorem click_single_request
  {B : Builtins}
  {JCustomer : JsonBody CustomerData} {JCatalog : JsonBody CatalogData}
  {JQuote : JsonBody QuoteData} {JOrder : JsonBody PlaceOrderData}
  {JReturn : JsonBody ScheduleReturnData}
  (server : Server) (op : Operation) (w : World) :
  loading (app w) = false ->
  sent (click server op w) = sent w ++ [requestOf op (form (app w))]
  /\ form (app (click server op w)) = form (app w)
  /\ loading (app (click server op w)) = false
  /\ (forall busy : World,
        loading (app busy) = true -> click server op busy = busy).
Proof.
  intros Hidle. unfold click. rewrite Hidle. repeat split.
  - apply clicked_sent.
  - apply clicked_form.
  - destruct op; apply run_ends_idle.
  - intros busy Hbusy. rewrite Hbusy. reflexivity.
Qed.

Lemma click_single_request_witness :
  loading (app usedWorld) = false
  /\ sent (click (B := exampleBuiltins) (JCustomer := decodesNothing _)
             (JCatalog := decodesCatalog) (JQuote := decodesNothing _)
             (JOrder := decodesNothing _) (JReturn := decodesNothing _)
             catalogServer LoadCatalog usedWorld)
     = sent usedWorld
       ++ [requestOf (B := exampleBuiltins) LoadCatalog
             (form (app usedWorld))].
Proof.
  split; [reflexivity |].
  apply (proj1 (click_single_request (B := exampleBuiltins)
                  (JCustomer := decodesNothing _)
                  (JCatalog := decodesCatalog) (JQuote := decodesNothing _)
                  (JOrder := decodesNothing _) (JReturn := decodesNothing _)
                  catalogServer LoadCatalog usedWorld eq_refl)).
Defined.

(** X12.  Clicks compose: starting from a component that is not busy, after
    a click on one button and, once its call has finished, a click on
    another, the two requests have gone out in the order of the clicks, and
    the second is made from the same inputs as the first, whatever the first
    call returned. *)
Theorem clicks_in_sequence
  {B : Builtins}
  {JCustomer : JsonBody CustomerData} {JCatalog : JsonBody CatalogData}
  {JQuote : JsonBody QuoteData} {JOrder : JsonBody PlaceOrderData}
  {JReturn : JsonBody ScheduleReturnData}
  (server : Server) (first second : Operation) (w : World) :
  loading (app w) = false ->
  sent (click server second (click server first w))
  = sent w ++ [requestOf first (form (app w));
               requestOf second (form (app w))].
Proof.
  intros Hidle.
  assert (H1 : click server first w = clicked server first w).
  { unfold click. rewrite Hidle. reflexivity. }
  assert (Hidle1 : loading (app (clicked server first w)) = false).
  { destruct first; apply run_ends_idle. }
  rewrite H1. unfold click. rewrite Hidle1.
  rewrite clicked_sent, clicked_sent, clicked_form, <- app_assoc.
  reflexivity.
Qed.

Lemma clicks_in_sequence_witness :
  sent (click (B := exampleBuiltins) (JCustomer := decodesNothing _)
          (JCatalog := decodesCatalog) (JQuote := decodesNothing _)
          (JOrder := decodesNothing _) (JReturn := decodesNothing _)
          catalogServer LoadCustomer
          (click (B := exampleBuiltins) (JCustomer := decodesNothing _)
             (JCatalog := decodesCatalog) (JQuote := decodesNothing _)
             (JOrder := decodesNothing _) (JReturn := decodesNothing _)
             catalogServer LoadCatalog usedWorld))
  = sent usedWorld
    ++ [requestOf (B := exampleBuiltins) LoadCatalog (form (app usedWorld));
        requestOf (B := exampleBuiltins) LoadCustomer
          (form (app usedWorld))].
Proof.
  apply (clicks_in_sequence (B := exampleBuiltins)
           (JCustomer := decodesNothing _)
           (JCatalog := decodesCatalog) (JQuote := decodesNothing _)
           (JOrder := decodesNothing _) (JReturn := decodesNothing _)
           catalogServer LoadCatalog LoadCustomer usedWorld).
  reflexivity.
Defined.

(** X5.  [run] reads neither the busy flag nor the error text it starts
    with: started while busy, or with an error on screen, it does what it
    does otherwise, so nothing in it holds back a second call; and so do the
    five handlers. *)
Theorem run_ignores_flags
  {T : Type} {B : Builtins} {TT : Truthy T}
  (task : M T (GraphQLResponse T)) (onSuccess : T -> M T unit) (w : World)
  (busy : bool) (text : string) :
  run task onSuccess (onApp (withError text) (onApp (withLoading busy) w))
  = run task onSuccess w
  /\ (forall (JCustomer : JsonBody CustomerData)
             (JCatalog : JsonBody CatalogData) (JQuote : JsonBody QuoteData)
             (JOrder : JsonBody PlaceOrderData)
             (JReturn : JsonBody ScheduleReturnData)
             (server : Server) (op : Operation),
        clicked server op (onApp (withError text) (onApp (withLoading busy) w))
        = clicked server op w).
Proof.
  split.
  - reflexivity.
  - intros. destruct op; reflexivity.
Qed.

(** ** Calls as state transitions *)

(** With a task that leaves the component alone and a callback that only
    stores [store d], the state after [run] is [settled]. *)
Lemma run_store_app
  {T : Type} {B : Builtins} {TT : Truthy T}
  (task : M T (GraphQLResponse T)) (onSuccess : T -> M T unit)
  (store : T -> Results -> Results) (w : World) :
  app (after task (started w)) = app (started w) ->
  (forall d v, onSuccess d v = setResults (store d) v) ->
  app (after (run task onSuccess) w)
  = settled store (app w) (outcome task (started w)).
Proof.
  unfold after, outcome. intros Ht Hc.
  destruct (task (started w)) as [[tr w2] [e | payload]] eqn:Htask;
    cbn [fst snd] in *.
  - rewrite (run_task_throws task onSuccess _ _ _ _ Htask). simpl.
    rewrite Ht. reflexivity.
  - rewrite (run_task_returns task onSuccess _ _ _ _ Htask).
    unfold dispatch, settled. destruct (hasErrors payload).
    + simpl. rewrite Ht. reflexivity.
    + destruct (data payload) as [d |].
      * destruct (truthy d); simpl.
        -- unfold callOnSuccess. rewrite Hc. simpl. rewrite Ht. reflexivity.
        -- rewrite Ht. reflexivity.
      * simpl. rewrite Ht. reflexivity.
Qed.

Lemma form_settled
  {T : Type} {B : Builtins} {TT : Truthy T}
  (store : T -> Results -> Results) (s : AppState)
  (r : Outcome (GraphQLResponse T)) :
  form (settled store s r) = form s.
Proof.
  unfold settled. destruct r as [e | payload]; [reflexivity |].
  destruct (hasErrors payload); [reflexivity |].
  destruct (data payload) as [d |]; [| reflexivity].
  destruct (truthy d); reflexivity.
Qed.

(** Settling twice on the same answer is settling once, when storing twice
    is storing once. *)
Lemma settled_twice
  {T : Type} {B : Builtins} {TT : Truthy T}
  (store : T -> Results -> Results) (s : AppState)
  (r : Outcome (GraphQLResponse T)) :
  (forall d res, store d (store d res) = store d res) ->
  settled store (settled store s r) r = settled store s r.
Proof.
  intros Hs. unfold settled. destruct r as [e | payload]; [reflexivity |].
  destruct (hasErrors payload); [reflexivity |].
  destruct (data payload) as [d |]; [| reflexivity].
  destruct (truthy d); simpl; [rewrite Hs |]; reflexivity.
Qed.

(** A successful outcome comes from an envelope with data, and settles to
    the stored data with no error text. *)
Lemma settled_success
  {T : Type} {B : Builtins} {TT : Truthy T}
  (store : T -> Results -> Results) (s : AppState)
  (r : Outcome (GraphQLResponse T)) :
  outcomeOf r = Success ->
  exists payload d,
    r = inr payload /\ data payload = Some d
    /\ settled store s r
       = {| form := form s; loading := false; error := "";
            results := store d (results s) |}.
Proof.
  unfold outcomeOf, settled. destruct r as [e | payload]; [discriminate |].
  destruct (hasErrors payload); [discriminate |].
  destruct (data payload) as [d |] eqn:D; [| discriminate].
  destruct (truthy d); simpl; [| discriminate].
  intros _. exists payload, d. repeat split; (reflexivity || exact D).
Qed.

Section ClickFacts.
Context {B : Builtins}.
Context {JCustomer : JsonBody CustomerData} {JCatalog : JsonBody CatalogData}
        {JQuote : JsonBody QuoteData} {JOrder : JsonBody PlaceOrderData}
        {JReturn : JsonBody ScheduleReturnData}.
Variable server : Server.

(** The same for a handler, whose task is a [gqlRequest]. *)
Lemma handler_app
  {T : Type} {TT : Truthy T} {J : JsonBody T}
  (query : string) (variables : Form -> list (string * JsValue))
  (onSuccess : T -> M T unit) (store : T -> Results -> Results) (w : World) :
  (forall d v, onSuccess d v = setResults (store d) v) ->
  app (snd (fst (run (gqlRequest server query (variables (form (app w))))
                     onSuccess w)))
  = settled store (app w)
      (outcome (gqlRequest server query (variables (form (app w))))
               (started w)).
Proof.
  intros Hc.
  apply (run_store_app (gqlRequest server query (variables (form (app w))))
           onSuccess store w).
  - apply gqlRequest_app.
  - exact Hc.
Qed.

(** Against a deterministic server, a handler run again in the world it left
    leaves the same state. *)
Lemma handler_retry
  {T : Type} {TT : Truthy T} {J : JsonBody T}
  (query : string) (variables : Form -> list (string * JsValue))
  (onSuccess : T -> M T unit) (store : T -> Results -> Results) (w : World) :
  deterministic server ->
  (forall d v, onSuccess d v = setResults (store d) v) ->
  (forall d res, store d (store d res) = store d res) ->
  app (snd (fst (run (gqlRequest server query
                        (variables
                           (form (app (snd (fst (run (gqlRequest server query
                              (variables (form (app w)))) onSuccess w)))))))
                     onSuccess
                     (snd (fst (run (gqlRequest server query
                                       (variables (form (app w))))
                                    onSuccess w))))))
  = app (snd (fst (run (gqlRequest server query (variables (form (app w))))
                       onSuccess w))).
Proof.
  intros Hdet Hc Hs.
  set (w1 := snd (fst (run (gqlRequest server query
                              (variables (form (app w)))) onSuccess w))).
  assert (H1 : app w1
               = settled store (app w)
                   (outcome (gqlRequest server query
                               (variables (form (app w)))) (started w))).
  { apply handler_app. exact Hc. }
  rewrite (handler_app query variables onSuccess store w1 Hc).
  rewrite H1, form_settled.
  rewrite (gqlRequest_outcome_deterministic server query
             (variables (form (app w))) (started w1) (started w) Hdet).
  apply settled_twice. exact Hs.
Qed.

(** The state a click leaves is [settled] on what its request settles to. *)
Lemma clicked_app (op : Operation) (w : World) :
  app (clicked server op w) = clickSettled server op w.
Proof.
  destruct op; unfold clicked, clickSettled, after, loadCustomer,
    loadCatalog, getQuote, placeOrderClick, scheduleReturnClick;
    apply handler_app; reflexivity.
Qed.
End ClickFacts.

(** X6.  When the call of a click succeeds, the click leaves the error text
    empty and the busy flag cleared, and the slot of its button holds what
    the envelope carried: the customer or [null], the list of catalog items,
    the quote, the order result or the return result. *)
Theorem click_success_stores
  {B : Builtins}
  {JCustomer : JsonBody CustomerData} {JCatalog : JsonBody CatalogData}
  {JQuote : JsonBody QuoteData} {JOrder : JsonBody PlaceOrderData}
  {JReturn : JsonBody ScheduleReturnData}
  (server : Server) (op : Operation) (w : World) :
  clickOutcome server op w = Success ->
  error (app (clicked server op w)) = ""
  /\ loading (app (clicked server op w)) = false
  /\ match op with
     | LoadCustomer =>
         exists payload d,
           outcome (gqlRequest server customerQuery
                      (customerVariables (form (app w)))) (started w)
             = inr payload
           /\ data payload = Some d
           /\ customerResult (results (app (clicked server LoadCustomer w)))
              = customer d
     | LoadCatalog =>
         exists payload d,
           outcome (gqlRequest server catalogQuery
                      (catalogVariables (form (app w)))) (started w)
             = inr payload
           /\ data payload = Some d
           /\ catalogResult (results (app (clicked server LoadCatalog w)))
              = catalogItems d
     | GetQuote =>
         exists payload d,
           outcome (gqlRequest server quoteQuery
                      (quoteVariables (form (app w)))) (started w)
             = inr payload
           /\ data payload = Some d
           /\ quoteResult (results (app (clicked server GetQuote w)))
              = Some (quotePrice d)
     | PlaceOrder =>
         exists payload d,
           outcome (gqlRequest server placeOrderMutation
                      (placeOrderVariables (form (app w)))) (started w)
             = inr payload
           /\ data payload = Some d
           /\ placeOrderResult (results (app (clicked server PlaceOrder w)))
              = Some (placeOrder d)
     | ScheduleReturn =>
         exists payload d,
           outcome (gqlRequest server scheduleReturnMutation
                      (scheduleReturnVariables (form (app w)))) (started w)
             = inr payload
           /\ data payload = Some d
           /\ scheduleReturnResult
                (results (app (clicked server ScheduleReturn w)))
              = Some (scheduleReturn d)
     end.
Proof.
  intros Hk. rewrite !clicked_app.
  destruct op; unfold clickSettled, clickOutcome,
    callOutcome in *;
    match goal with
    | |- context [settled ?store ?s ?r] =>
        destruct (settled_success store s r Hk) as [payload [d [Hr [Hd Hs]]]]
    end;
    rewrite Hs; repeat split; exists payload, d; repeat split; assumption.
Qed.

Lemma click_success_stores_witness :
  clickOutcome (B := exampleBuiltins) (JCustomer := decodesNothing _)
    (JCatalog := decodesCatalog) (JQuote := decodesNothing _)
    (JOrder := decodesNothing _) (JReturn := decodesNothing _)
    catalogServer LoadCatalog usedWorld = Success
  /\ error (app (clicked (B := exampleBuiltins)
                   (JCustomer := decodesNothing _)
                   (JCatalog := decodesCatalog) (JQuote := decodesNothing _)
                   (JOrder := decodesNothing _) (JReturn := decodesNothing _)
                   catalogServer LoadCatalog usedWorld)) = ""
  /\ catalogResult
       (results (app (clicked (B := exampleBuiltins)
                        (JCustomer := decodesNothing _)
                        (JCatalog := decodesCatalog)
                        (JQuote := decodesNothing _)
                        (JOrder := decodesNothing _)
                        (JReturn := decodesNothing _)
                        catalogServer LoadCatalog usedWorld))) = [widget].
Proof.
  split; [reflexivity |].
  pose proof (click_success_stores (B := exampleBuiltins)
                (JCustomer := decodesNothing _)
                (JCatalog := decodesCatalog) (JQuote := decodesNothing _)
                (JOrder := decodesNothing _) (JReturn := decodesNothing _)
                catalogServer LoadCatalog usedWorld eq_refl)
    as [He [_ _]].
  split; [exact He | reflexivity].
Defined.

(** X7.  When [fetch] rejects, or when the body of the response does not
    decode, a call made with [run] and [gqlRequest] ends as a transport
    error: the error text is that of the thrown value, the callback is not
    called and the result slots stay as they were. *)
Theorem run_transport_failures
  {T : Type} {B : Builtins} {TT : Truthy T} {J : JsonBody T}
  (server : Server) (query : string) (variables : list (string * JsValue))
  (onSuccess : T -> M T unit) (w : World) (e : Thrown) :
  server (sent w)
    {| url := "/graphql"; method := "POST";
       headers := [("content-type", "application/json")];
       body := JSON_stringify
                 (VObject [("query", VString query);
                           ("variables", VObject variables)]) |} = inl e
  \/ (exists response,
        server (sent w)
          {| url := "/graphql"; method := "POST";
             headers := [("content-type", "application/json")];
             body := JSON_stringify
                       (VObject [("query", VString query);
                                 ("variables", VObject variables)]) |}
          = inr response
        /\ decodeJson (T := T) (responseBody response) = inl e) ->
  callOutcome (gqlRequest server query variables) w = TransportError
  /\ error (app (after (run (gqlRequest server query variables) onSuccess) w))
     = match e with ThrownError m => m | ThrownValue v => String_ v end
  /\ onSuccessCalls
       (steps (run (gqlRequest server query variables) onSuccess) w) = []
  /\ results (app (after (run (gqlRequest server query variables)
                              onSuccess) w))
     = results (app w).
Proof.
  intros H.
  assert (Ht : exists tr w2,
             gqlRequest (T := T) server query variables (started w)
               = (tr, w2, inl e) /\ app w2 = app (started w)).
  { pose proof (gqlRequest_settles (T := T) server query variables
                  (started w)) as Hg. cbv zeta in Hg.
    change (sent (started w)) with (sent w) in Hg.
    destruct H as [Hs | [response [Hs Hd]]]; rewrite Hs in Hg;
      [| rewrite Hd in Hg]; eexists; eexists; (split; [exact Hg |]);
      reflexivity. }
  destruct Ht as [tr [w2 [Ht Ha]]].
  unfold callOutcome, outcome, after, steps.
  rewrite (run_task_throws _ onSuccess _ _ _ _ Ht), Ht. simpl.
  rewrite Ha. repeat split; reflexivity.
Qed.

Lemma run_transport_failures_witness :
  callOutcome (gqlRequest (B := exampleBuiltins) (J := rejectsBody)
                 htmlServer customerQuery (customerVariables initialForm))
    usedWorld = TransportError
  /\ error (app (after (run (B := exampleBuiltins)
                           (gqlRequest (B := exampleBuiltins)
                              (J := rejectsBody) htmlServer customerQuery
                              (customerVariables initialForm))
                           storeCustomer) usedWorld))
     = "Unexpected token <"
  /\ results (app (after (run (B := exampleBuiltins)
                             (gqlRequest (B := exampleBuiltins)
                                (J := rejectsBody) htmlServer customerQuery
                                (customerVariables initialForm))
                             storeCustomer) usedWorld))
     = results (app usedWorld).
Proof.
  pose proof (run_transport_failures (B := exampleBuiltins)
                (J := rejectsBody) htmlServer customerQuery
                (customerVariables initialForm) storeCustomer usedWorld
                (ThrownError "Unexpected token <")
                (or_intror (ex_intro _ {| responseBody := "<html></html>" |}
                              (conj eq_refl eq_refl))))
    as [H1 [H2 [_ H4]]].
  repeat split; assumption.
Defined.

(** X8.  Against a deterministic server, a second click on the same button
    leaves the component in the state the first click left: the same error
    text, the same slots, the busy flag cleared. *)
Theorem click_retry_same_state
  {B : Builtins}
  {JCustomer : JsonBody CustomerData} {JCatalog : JsonBody CatalogData}
  {JQuote : JsonBody QuoteData} {JOrder : JsonBody PlaceOrderData}
  {JReturn : JsonBody ScheduleReturnData}
  (server : Server) (op : Operation) (w : World) :
  deterministic server ->
  app (clicked server op (clicked server op w)) = app (clicked server op w).
Proof.
  intros Hdet.
  destruct op; unfold clicked, after, loadCustomer, loadCatalog, getQuote,
    placeOrderClick, scheduleReturnClick.
  - apply (handler_retry server customerQuery customerVariables
             storeCustomer customerStore w Hdet); reflexivity.
  - apply (handler_retry server catalogQuery catalogVariables
             storeCatalog catalogStore w Hdet); reflexivity.
  - apply (handler_retry server quoteQuery quoteVariables
             storeQuote quoteStore w Hdet); reflexivity.
  - apply (handler_retry server placeOrderMutation placeOrderVariables
             storePlaceOrder placeOrderStore w Hdet); reflexivity.
  - apply (handler_retry server scheduleReturnMutation
             scheduleReturnVariables storeScheduleReturn
             scheduleReturnStore w Hdet); reflexivity.
Qed.

Lemma click_retry_same_state_witness :
  app (clicked (B := exampleBuiltins) (JCustomer := decodesNothing _)
         (JCatalog := decodesCatalog) (JQuote := decodesNothing _)
         (JOrder := decodesNothing _) (JReturn := decodesNothing _)
         catalogServer LoadCatalog
         (clicked (B := exampleBuiltins) (JCustomer := decodesNothing _)
            (JCatalog := decodesCatalog) (JQuote := decodesNothing _)
            (JOrder := decodesNothing _) (JReturn := decodesNothing _)
            catalogServer LoadCatalog usedWorld))
  = app (clicked (B := exampleBuiltins) (JCustomer := decodesNothing _)
           (JCatalog := decodesCatalog) (JQuote := decodesNothing _)
           (JOrder := decodesNothing _) (JReturn := decodesNothing _)
           catalogServer LoadCatalog usedWorld).
Proof.
  apply (click_retry_same_state (B := exampleBuiltins)
           (JCustomer := decodesNothing _)
           (JCatalog := decodesCatalog) (JQuote := decodesNothing _)
           (JOrder := decodesNothing _) (JReturn := decodesNothing _)
           catalogServer LoadCatalog usedWorld).
  intros h h' req. reflexivity.
Defined.

(** ** What reaches the screen *)

(** X9.  [run] writes the error text once to empty it and at most once more:
    a single call never reports twice.  When the call does not succeed there
    is exactly one report, and it is the error text [run] leaves. *)
Theorem run_reports_at_most_once
  {T : Type} {B : Builtins} {TT : Truthy T}
  (task : M T (GraphQLResponse T)) (onSuccess : T -> M T unit) (w : World) :
  exists reports,
    errorWrites (steps (run task onSuccess) w) = "" :: reports
    /\ length reports <= 1
    /\ (callOutcome task w <> Success ->
        reports = [error (app (after (run task onSuccess) w))]).
Proof.
  unfold callOutcome, outcome, steps, after, outcomeOf.
  destruct (task (started w)) as [[tr w2] [e | payload]] eqn:Htask;
    cbn [fst snd].
  - rewrite (run_task_throws task onSuccess _ _ _ _ Htask). simpl.
    exists [errorMessage e]. repeat split. apply le_n.
  - rewrite (run_task_returns task onSuccess _ _ _ _ Htask). unfold dispatch.
    destruct (hasErrors payload).
    + simpl. eexists. repeat split. apply le_n.
    + destruct (data payload) as [d |].
      * destruct (truthy d); simpl.
        -- unfold callOnSuccess.
           destruct (onSuccess d w2) as [[tc w3] [e | u]]; simpl.
           ++ exists [errorMessage e]. repeat split. apply le_n.
           ++ exists []. repeat split; [apply le_S, le_n | congruence].
        -- eexists. repeat split. apply le_n.
      * simpl. eexists. repeat split. apply le_n.
Qed.

Lemma join_newline_empty (parts : list string) :
  join newline parts = "" <-> parts = [] \/ parts = [""].
Proof.
  destruct parts as [| a [| b rest]]; simpl.
  - split; [left; reflexivity | reflexivity].
  - split.
    + intros ->. right. reflexivity.
    + intros [H | H]; [discriminate | congruence].
  - split.
    + destruct a; discriminate.
    + intros [H | H]; discriminate.
Qed.

(** X10.  After an application error the error text is empty, so that
    nothing is there to show, exactly when the envelope carries a single
    error whose message is empty; every other non-empty list of errors
    leaves a text. *)
Theorem run_application_error_silent
  {T : Type} {B : Builtins} {TT : Truthy T}
  (task : M T (GraphQLResponse T)) (onSuccess : T -> M T unit)
  (w w2 : World) (tr : Trace T) (payload : GraphQLResponse T)
  (errs : list GraphQLError) :
  task (started w) = (tr, w2, inr payload) ->
  errors payload = Some errs ->
  errs <> [] ->
  (error (app (after (run task onSuccess) w)) = ""
   <-> errs = [ {| message := "" |} ]).
Proof.
  intros Htask E N. unfold after.
  rewrite (run_task_returns task onSuccess _ _ _ _ Htask).
  rewrite (dispatch_errors onSuccess _ _ _ E N). simpl.
  rewrite join_newline_empty. split.
  - intros [H | H].
    + destruct errs; [congruence | discriminate].
    + destruct errs as [| [m] [| b rest]]; try discriminate.
      simpl in H. congruence.
  - intros ->. right. reflexivity.
Qed.

Lemma run_application_error_silent_witness :
  error (app (after (run (B := exampleBuiltins) (ret silentError)
                         storeCustomer) usedWorld)) = "".
Proof.
  apply (proj2 (run_application_error_silent (B := exampleBuiltins)
                  (ret silentError) storeCustomer usedWorld
                  (started usedWorld) [] silentError
                  [ {| message := "" |} ] eq_refl eq_refl
                  (fun H => eq_ind [ {| message := "" |} ]
                              (fun l => match l with
                                        | [] => False
                                        | _ :: _ => True
                                        end) I [] H))).
  reflexivity.
Defined.

(** ** The proxy of the development server *)

(** X11.  The target of the proxy is never empty: it is the environment
    variable when that is set and not empty, else [http://localhost:4400].
    The path every click posts to is a key of the proxy table, whose entry
    has that target and changes the origin. *)
Theorem proxy_covers_graphql {B : Builtins}
  (VITE_BFF_URL : option string) (op : Operation) (f : Form) :
  ViteConfig.bffTarget VITE_BFF_URL <> ""
  /\ (forall value, VITE_BFF_URL = Some value -> value <> "" ->
        ViteConfig.bffTarget VITE_BFF_URL = value)
  /\ (VITE_BFF_URL = None \/ VITE_BFF_URL = Some "" ->
      ViteConfig.bffTarget VITE_BFF_URL = "http://localhost:4400")
  /\ ViteConfig.entry (url (requestOf op f)) (ViteConfig.proxy VITE_BFF_URL)
     = Some {| ViteConfig.target := ViteConfig.bffTarget VITE_BFF_URL;
               ViteConfig.changeOrigin := true |}.
Proof.
  repeat split.
  - destruct VITE_BFF_URL as [[| a rest] |]; discriminate.
  - intros value -> Hv. destruct value; [congruence | reflexivity].
  - intros [-> | ->]; reflexivity.
Qed.
